(** * slog: a shallow embedding of the ESP-IDF logging component

    The component (include/idflog.h and its implementation) offers two
    surfaces over a formatter and a two-sink dispatcher:

    - the instance surface: a [slog_t] struct of configuration fields and
      method pointers, initialised by [slog_init], whose log methods all end
      in [slog_send_logs];
    - the standalone surface: the [idflog_*] free functions over three
      file-scope statics, all ending in [send_logs].

    Modelling conventions.
    - A [const char*] argument is modelled by the characters it points to
      before the terminating NUL (a [string]).
    - [idflog_level_t] is a C enum: any integer may be passed, so it is [Z].
    - [unsigned long] is the 32-bit type of the ESP32 targets, a [Z] with the
      wrap-around written out.
    - The console, the callback and the clock are the outside world: console
      writes and callback invocations are appended to a trace, the clock is a
      sequence of [gettimeofday] readings with a read counter.  What a
      callback does once invoked is its owner's business; the trace records
      the invocation and its three arguments. *)

From Stdlib Require Import ZArith List String Ascii Bool Lia.
Import ListNotations.

Local Open Scope string_scope.
Local Open Scope Z_scope.

(** ** Level enumeration *)

Definition idflog_level_t := Z.

Definition IDFLOG_DEBUG   : idflog_level_t := 0.
Definition IDFLOG_INFO    : idflog_level_t := 1.
Definition IDFLOG_ERROR   : idflog_level_t := 2.
Definition IDFLOG_VERBOSE : idflog_level_t := 3.
Definition IDFLOG_WARNING : idflog_level_t := 4.
Definition IDFLOG_WTF     : idflog_level_t := 5.

(** The six enumerators, as a boolean test on a level value. *)
Definition enumerated (level : idflog_level_t) : bool :=
  (0 <=? level) && (level <=? 5).

(** [slog_level_name]: the bracketed tag of the instance surface. *)
Definition slog_level_name (level : idflog_level_t) : string :=
  match level with
  | 0 => "[DEBUG]"
  | 1 => "[INFO]"
  | 2 => "[ERROR]"
  | 3 => "[VERBOSE]"
  | 4 => "[WARNING]"
  | 5 => "[WTF]"
  | _ => "[UNKNOWN]"
  end.

(** [get_level_name]: the bare tag of the standalone surface. *)
Definition get_level_name (level : idflog_level_t) : string :=
  match level with
  | 0 => "DEBUG"
  | 1 => "INFO"
  | 2 => "ERROR"
  | 3 => "VERBOSE"
  | 4 => "WARNING"
  | 5 => "WTF"
  | _ => "UNKNOWN"
  end.

(** ** Bounded formatting *)

(** The line terminator of both format strings. *)
Definition NL : string := String (ascii_of_nat 10) "".


(** The first [n] characters of [s]. *)
Fixpoint take (n : nat) (s : string) : string :=
  match n, s with
  | O, _ => ""
  | _, EmptyString => ""
  | S k, String c r => String c (take k r)
  end.

(** [snprintf(buf, size, ...)] seen from the reader of [buf]: of the
    characters [out] that the conversion produces, the first [size - 1] are
    stored and a NUL follows them; nothing is stored when [size] is 0. *)
Definition snprintf (size : nat) (out : string) : string :=
  take (size - 1) out.







(** [%lu]: the decimal digits of an unsigned value, most significant first.
    Twenty digits cover every 64-bit value. *)
Definition digit (d : Z) : ascii := ascii_of_nat (48 + Z.to_nat d).

Fixpoint digits (fuel : nat) (n : Z) (acc : string) : string :=
  match fuel with
  | O => acc
  | S f =>
      let acc' := String (digit (n mod 10)) acc in
      if n / 10 =? 0 then acc' else digits f (n / 10) acc'
  end.

Definition fmt_lu (n : Z) : string := digits 20 n "".

(** ** Types of the header *)

(** [idflog_callback_t]: a pointer to a user function; [NULL] is no
    callback. *)
Definition idflog_callback_t := N.
Definition NULL : idflog_callback_t := 0%N.

(** The static functions a method pointer of [slog_t] can hold; [fn_other]
    stands for any other pointer value (an instance not yet initialised). *)
Inductive fnptr : Type :=
| fn_slog_set_print | fn_slog_show_time | fn_slog_set_log_callback
| fn_slog_d | fn_slog_d_format | fn_slog_e | fn_slog_e_format
| fn_slog_i | fn_slog_i_format | fn_slog_v | fn_slog_v_format
| fn_slog_w | fn_slog_w_format | fn_slog_wtf | fn_slog_wtf_format
| fn_slog_log | fn_slog_log_format
| fn_other (addr : N).

Record slog_t : Type := mk_slog {
  _print : bool;
  _time : bool;
  logging_callback : idflog_callback_t;
  set_print : fnptr;
  show_time : fnptr;
  set_log_callback : fnptr;
  d : fnptr;
  d_format : fnptr;
  e : fnptr;
  e_format : fnptr;
  i : fnptr;
  i_format : fnptr;
  v : fnptr;
  v_format : fnptr;
  w : fnptr;
  w_format : fnptr;
  wtf : fnptr;
  wtf_format : fnptr;
  log : fnptr;
  log_format : fnptr
}.

(** ** The outside world and the file-scope state *)

Record timeval : Type := mk_timeval { tv_sec : Z; tv_usec : Z }.

Inductive event : Type :=
| EvCallback (cb : idflog_callback_t) (level : idflog_level_t)
             (timestamp : Z) (message : string)
| EvPrintf (text : string)
| EvEspLogI (tag : string) (text : string).

Record world : Type := mk_world {
  print_enabled : bool;             (* static bool print_enabled *)
  show_time_enabled : bool;         (* static bool show_time_enabled *)
  log_callback : idflog_callback_t; (* static idflog_callback_t log_callback *)
  slog : slog_t;                    (* slog_t slog *)
  clock : nat -> timeval;           (* the k-th reading of gettimeofday *)
  reads : nat;                      (* readings taken so far *)
  trace : list event                (* console writes and callback calls *)
}.

(** A small state monad over the world. *)
Definition M (A : Type) : Type := world -> A * world.

Definition ret {A} (a : A) : M A := fun g => (a, g).

Definition bind {A B} (m : M A) (k : A -> M B) : M B :=
  fun g => let (a, g') := m g in k a g'.

Notation "x <- m ;; k" := (bind m (fun x => k))
  (at level 61, m at next level, right associativity).
Notation "m ;;; k" := (bind m (fun _ => k))
  (at level 61, right associativity).

Definition when (b : bool) (m : M unit) : M unit :=
  if b then m else ret tt.

Definition read {A} (field : world -> A) : M A := fun g => (field g, g).

Definition emit (ev : event) : M unit := fun g =>
  (tt, mk_world (print_enabled g) (show_time_enabled g) (log_callback g)
                (slog g) (clock g) (reads g) (trace g ++ [ev])).

Definition gettimeofday : M timeval := fun g =>
  (clock g (reads g),
   mk_world (print_enabled g) (show_time_enabled g) (log_callback g)
            (slog g) (clock g) (S (reads g)) (trace g)).

Definition printf (text : string) : M unit := emit (EvPrintf text).

(** A call through the callback pointer.  The callee is user code that the
    component does not contain: the call is recorded with its three
    arguments and the callee is taken to leave the logger's own state
    alone. *)
Definition call (cb : idflog_callback_t) (level : idflog_level_t)
  (timestamp : Z) (message : string) : M unit :=
  emit (EvCallback cb level timestamp message).

Definition exec {A} (m : M A) (g : world) : world := snd (m g).

(** ** Clock *)

(** The cast to [unsigned long]: the sum is computed in [time_t], taken
    wide enough to hold it, and reduced modulo 2^32 by the cast. *)
Definition ULONG_BITS : Z := 32.
Definition to_ulong (z : Z) : Z := z mod 2 ^ ULONG_BITS.

(** [get_millis]: milliseconds of one [gettimeofday] reading. *)
Definition get_millis : M Z :=
  tv <- gettimeofday ;;
  ret (to_ulong (tv_sec tv * 1000 + Z.quot (tv_usec tv) 1000)).

(** [get_timestamp_ms]: the standalone copy of [get_millis]. *)
Definition get_timestamp_ms : M Z :=
  tv <- gettimeofday ;;
  ret (to_ulong (tv_sec tv * 1000 + Z.quot (tv_usec tv) 1000)).

(** The value either function returns in world [g]. *)
Definition now_ms (g : world) : Z :=
  let tv := clock g (reads g) in
  to_ulong (tv_sec tv * 1000 + Z.quot (tv_usec tv) 1000).

(** ** Instance surface *)

Definition slog_set_print (self : slog_t) (state : bool) : slog_t :=
  mk_slog state (_time self) (logging_callback self)
    (set_print self) (show_time self) (set_log_callback self)
    (d self) (d_format self) (e self) (e_format self)
    (i self) (i_format self) (v self) (v_format self)
    (w self) (w_format self) (wtf self) (wtf_format self)
    (log self) (log_format self).

Definition slog_show_time (self : slog_t) (state : bool) : slog_t :=
  mk_slog (_print self) state (logging_callback self)
    (set_print self) (show_time self) (set_log_callback self)
    (d self) (d_format self) (e self) (e_format self)
    (i self) (i_format self) (v self) (v_format self)
    (w self) (w_format self) (wtf self) (wtf_format self)
    (log self) (log_format self).

Definition slog_set_log_callback (self : slog_t) (callback : idflog_callback_t)
  : slog_t :=
  mk_slog (_print self) (_time self) callback
    (set_print self) (show_time self) (set_log_callback self)
    (d self) (d_format self) (e self) (e_format self)
    (i self) (i_format self) (v self) (v_format self)
    (w self) (w_format self) (wtf self) (wtf_format self)
    (log self) (log_format self).

Definition slog_send_logs (self : slog_t) (level : idflog_level_t)
  (message : string) : M unit :=
  time <- get_millis ;;
  let msg :=
    if _time self
    then snprintf 512 (fmt_lu time ++ " " ++ slog_level_name level ++ ": "
                       ++ message ++ NL)
    else snprintf 512 (slog_level_name level ++ ": " ++ message ++ NL) in
  when (negb (N.eqb (logging_callback self) NULL))
       (call (logging_callback self) level time msg) ;;;
  when (_print self) (printf msg).

(** Plain-message methods. *)
Definition slog_d (self : slog_t) (msg : string) : M unit :=
  slog_send_logs self IDFLOG_DEBUG msg.
Definition slog_e (self : slog_t) (msg : string) : M unit :=
  slog_send_logs self IDFLOG_ERROR msg.
Definition slog_i (self : slog_t) (msg : string) : M unit :=
  slog_send_logs self IDFLOG_INFO msg.
Definition slog_v (self : slog_t) (msg : string) : M unit :=
  slog_send_logs self IDFLOG_VERBOSE msg.
Definition slog_w (self : slog_t) (msg : string) : M unit :=
  slog_send_logs self IDFLOG_WARNING msg.
Definition slog_wtf (self : slog_t) (msg : string) : M unit :=
  slog_send_logs self IDFLOG_WTF msg.
Definition slog_log (self : slog_t) (level : idflog_level_t) (msg : string)
  : M unit :=
  slog_send_logs self level msg.

(** Formatted methods.  [expansion] is the text that the format string and
    its arguments convert to; [vsnprintf] stores it in [char buffer[256]]. *)
Definition slog_d_format (self : slog_t) (expansion : string) : M unit :=
  let buffer := snprintf 256 expansion in
  slog_send_logs self IDFLOG_DEBUG buffer.
Definition slog_e_format (self : slog_t) (expansion : string) : M unit :=
  let buffer := snprintf 256 expansion in
  slog_send_logs self IDFLOG_ERROR buffer.
Definition slog_i_format (self : slog_t) (expansion : string) : M unit :=
  let buffer := snprintf 256 expansion in
  slog_send_logs self IDFLOG_INFO buffer.
Definition slog_v_format (self : slog_t) (expansion : string) : M unit :=
  let buffer := snprintf 256 expansion in
  slog_send_logs self IDFLOG_VERBOSE buffer.
Definition slog_w_format (self : slog_t) (expansion : string) : M unit :=
  let buffer := snprintf 256 expansion in
  slog_send_logs self IDFLOG_WARNING buffer.
Definition slog_wtf_format (self : slog_t) (expansion : string) : M unit :=
  let buffer := snprintf 256 expansion in
  slog_send_logs self IDFLOG_WTF buffer.
Definition slog_log_format (self : slog_t) (level : idflog_level_t)
  (expansion : string) : M unit :=
  let buffer := snprintf 256 expansion in
  slog_send_logs self level buffer.

(** [slog_init] assigns every member; the argument is the instance as it
    was before the call. *)
Definition slog_init (slog_instance : slog_t) : slog_t :=
  mk_slog true true NULL
    fn_slog_set_print fn_slog_show_time fn_slog_set_log_callback
    fn_slog_d fn_slog_d_format fn_slog_e fn_slog_e_format
    fn_slog_i fn_slog_i_format fn_slog_v fn_slog_v_format
    fn_slog_w fn_slog_w_format fn_slog_wtf fn_slog_wtf_format
    fn_slog_log fn_slog_log_format.

(** Calling a log method through a pointer of the instance, as in
    [slog.i(&slog, "text")].  The arguments after [self] come in the four
    shapes of the method signatures; a pointer that is not a log method of
    that shape is not a call the model follows. *)
Inductive log_args : Type :=
| ArgMsg (msg : string)
| ArgFormat (expansion : string)
| ArgLevelMsg (level : idflog_level_t) (msg : string)
| ArgLevelFormat (level : idflog_level_t) (expansion : string).

Definition invoke (f : fnptr) (self : slog_t) (a : log_args)
  : option (M unit) :=
  match f, a with
  | fn_slog_d, ArgMsg msg => Some (slog_d self msg)
  | fn_slog_e, ArgMsg msg => Some (slog_e self msg)
  | fn_slog_i, ArgMsg msg => Some (slog_i self msg)
  | fn_slog_v, ArgMsg msg => Some (slog_v self msg)
  | fn_slog_w, ArgMsg msg => Some (slog_w self msg)
  | fn_slog_wtf, ArgMsg msg => Some (slog_wtf self msg)
  | fn_slog_d_format, ArgFormat ex => Some (slog_d_format self ex)
  | fn_slog_e_format, ArgFormat ex => Some (slog_e_format self ex)
  | fn_slog_i_format, ArgFormat ex => Some (slog_i_format self ex)
  | fn_slog_v_format, ArgFormat ex => Some (slog_v_format self ex)
  | fn_slog_w_format, ArgFormat ex => Some (slog_w_format self ex)
  | fn_slog_wtf_format, ArgFormat ex => Some (slog_wtf_format self ex)
  | fn_slog_log, ArgLevelMsg level msg => Some (slog_log self level msg)
  | fn_slog_log_format, ArgLevelFormat level ex =>
      Some (slog_log_format self level ex)
  | _, _ => None
  end.

(** ** Standalone surface *)

Definition TAG : string := "IDFLOG".

Definition store_slog (s : slog_t) : M unit := fun g =>
  (tt, mk_world (print_enabled g) (show_time_enabled g) (log_callback g)
                s (clock g) (reads g) (trace g)).

(** Modelled from the spec: the [ESP_LOGI] macro of esp_log.h, which is not
    part of the component; the specification names it as one of the
    platform's logging primitives and says no more.  A use of the macro is
    recorded with its tag and text as an event of its own; what the platform
    does with it is left open. *)
Definition ESP_LOGI (tag text : string) : M unit := emit (EvEspLogI tag text).

Definition idflog_init : M unit :=
  s <- read slog ;;
  store_slog (slog_init s) ;;;
  ESP_LOGI TAG "IDFLOG component initialized with slog".

Definition idflog_set_print (state : bool) : M unit := fun g =>
  (tt, mk_world state (show_time_enabled g) (log_callback g)
                (slog g) (clock g) (reads g) (trace g)).

Definition idflog_show_time (state : bool) : M unit := fun g =>
  (tt, mk_world (print_enabled g) state (log_callback g)
                (slog g) (clock g) (reads g) (trace g)).

Definition idflog_set_callback (callback : idflog_callback_t) : M unit :=
  fun g =>
  (tt, mk_world (print_enabled g) (show_time_enabled g) callback
                (slog g) (clock g) (reads g) (trace g)).

Definition send_logs (level : idflog_level_t) (message : string) : M unit :=
  timestamp <- get_timestamp_ms ;;
  cb <- read log_callback ;;
  when (negb (N.eqb cb NULL)) (call cb level timestamp message) ;;;
  pe <- read print_enabled ;;
  when pe
    (st <- read show_time_enabled ;;
     if st
     then printf ("[" ++ fmt_lu timestamp ++ "] [" ++ get_level_name level
                  ++ "] " ++ message ++ NL)
     else printf ("[" ++ get_level_name level ++ "] " ++ message ++ NL)).

Definition idflog_debug (expansion : string) : M unit :=
  let buffer := snprintf 256 expansion in
  send_logs IDFLOG_DEBUG buffer.
Definition idflog_info (expansion : string) : M unit :=
  let buffer := snprintf 256 expansion in
  send_logs IDFLOG_INFO buffer.
Definition idflog_error (expansion : string) : M unit :=
  let buffer := snprintf 256 expansion in
  send_logs IDFLOG_ERROR buffer.
Definition idflog_verbose (expansion : string) : M unit :=
  let buffer := snprintf 256 expansion in
  send_logs IDFLOG_VERBOSE buffer.
Definition idflog_warning (expansion : string) : M unit :=
  let buffer := snprintf 256 expansion in
  send_logs IDFLOG_WARNING buffer.
Definition idflog_wtf (expansion : string) : M unit :=
  let buffer := snprintf 256 expansion in
  send_logs IDFLOG_WTF buffer.
Definition idflog_log (level : idflog_level_t) (expansion : string) : M unit :=
  let buffer := snprintf 256 expansion in
  send_logs level buffer.

(** The seven log functions of the standalone surface, by name. *)
Inductive idflog_fn : Type :=
| f_idflog_debug | f_idflog_info | f_idflog_error | f_idflog_verbose
| f_idflog_warning | f_idflog_wtf
| f_idflog_log (level : idflog_level_t).

Definition idflog_call (f : idflog_fn) (expansion : string) : M unit :=
  match f with
  | f_idflog_debug => idflog_debug expansion
  | f_idflog_info => idflog_info expansion
  | f_idflog_error => idflog_error expansion
  | f_idflog_verbose => idflog_verbose expansion
  | f_idflog_warning => idflog_warning expansion
  | f_idflog_wtf => idflog_wtf expansion
  | f_idflog_log level => idflog_log level expansion
  end.

(** ** Observations *)

(** The text [slog_send_logs] composes, before the 512 bound, by whether
    timestamps are shown. *)
Definition slog_line (show : bool) (time : Z) (level : idflog_level_t)
  (message : string) : string :=
  if show
  then fmt_lu time ++ " " ++ slog_level_name level ++ ": " ++ message ++ NL
  else slog_level_name level ++ ": " ++ message ++ NL.

(** The text [send_logs] prints, by whether timestamps are shown. *)
Definition idflog_line (show : bool) (timestamp : Z) (level : idflog_level_t)
  (message : string) : string :=
  if show
  then "[" ++ fmt_lu timestamp ++ "] [" ++ get_level_name level ++ "] "
       ++ message ++ NL
  else "[" ++ get_level_name level ++ "] " ++ message ++ NL.

(** The events a computation appends to the trace when run from [g]. *)
Definition emitted {A} (m : M A) (g : world) : list event :=
  skipn (List.length (trace g)) (trace (exec m g)).

(** The console writes among some events, in order. *)
Fixpoint printed (evs : list event) : list string :=
  match evs with
  | [] => []
  | EvPrintf text :: rest => text :: printed rest
  | _ :: rest => printed rest
  end.

(** The callback invocations among some events, in order. *)
Fixpoint callbacks (evs : list event)
  : list (idflog_callback_t * idflog_level_t * Z * string) :=
  match evs with
  | [] => []
  | EvCallback cb level timestamp message :: rest =>
      (cb, level, timestamp, message) :: callbacks rest
  | _ :: rest => callbacks rest
  end.

(** The three configuration values of an instance, and of the statics. *)
Definition slog_config (s : slog_t) : bool * bool * idflog_callback_t :=
  (_print s, _time s, logging_callback s).

Definition idflog_config (g : world) : bool * bool * idflog_callback_t :=
  (print_enabled g, show_time_enabled g, log_callback g).

(** The method pointers of an instance, in declaration order. *)
Definition methods (s : slog_t) : list fnptr :=
  [set_print s; show_time s; set_log_callback s;
   d s; d_format s; e s; e_format s; i s; i_format s;
   v s; v_format s; w s; w_format s; wtf s; wtf_format s;
   log s; log_format s].

(** [sub] occurs in [s]. *)
Fixpoint contains (sub s : string) : bool :=
  String.prefix sub s ||
  match s with
  | EmptyString => false
  | String _ r => contains sub r
  end.

(** [s] ends with [suffix]. *)
Fixpoint ends_with (s suffix : string) : bool :=
  String.eqb s suffix ||
  match s with
  | EmptyString => false
  | String _ r => ends_with r suffix
  end.

(** The number of line terminators in [s]. *)
Fixpoint count_nl (s : string) : nat :=
  match s with
  | EmptyString => O
  | String c r =>
      ((if Ascii.eqb c (ascii_of_nat 10) then 1 else 0) + count_nl r)%nat
  end.

(** [n] copies of [c]. *)
Fixpoint replicate (n : nat) (c : ascii) : string :=
  match n with
  | O => ""
  | S k => String c (replicate k c)
  end.

(** ** Start-up state *)

(** [slog_t slog;] at file scope: zero-initialised storage. *)
Definition slog_zeroed : slog_t :=
  mk_slog false false NULL
    (fn_other 0) (fn_other 0) (fn_other 0)
    (fn_other 0) (fn_other 0) (fn_other 0) (fn_other 0)
    (fn_other 0) (fn_other 0) (fn_other 0) (fn_other 0)
    (fn_other 0) (fn_other 0) (fn_other 0) (fn_other 0)
    (fn_other 0) (fn_other 0).

(** The program state at load time, over a given clock. *)
Definition world_at_load (clk : nat -> timeval) : world :=
  mk_world true true NULL slog_zeroed clk 0 [].

(** A clock that reads 1234.567 s at every sample. *)
Definition fixed_clock : nat -> timeval := fun _ => mk_timeval 1234 567000.

(** An initialised instance and a start-up world, each with a callback
    registered. *)
Definition demo_self : slog_t :=
  slog_set_log_callback (slog_init slog_zeroed) 9%N.

Definition demo_world : world :=
  exec (idflog_set_callback 9%N) (world_at_load fixed_clock).

(** ** The specification's formatter and dispatcher

    These three definitions follow the words of the specification (sections
    4.1 and 4.2), not the source; they are what the two surfaces are compared
    with. *)






(** ** Both sinks at once *)

(** What one dispatch appends to the trace: the callback invocation, if a
    callback is registered, then the console write, if printing is on. *)
Definition sink_events (print : bool) (cb : idflog_callback_t)
  (level : idflog_level_t) (timestamp : Z) (to_callback to_console : string)
  : list event :=
  (if N.eqb cb NULL then [] else [EvCallback cb level timestamp to_callback])
  ++ (if print then [EvPrintf to_console] else []).

(** ** Further observations *)

(** The milliseconds [get_millis] and [get_timestamp_ms] compute from one
    reading. *)
Definition millis_of (tv : timeval) : Z :=
  to_ulong (tv_sec tv * 1000 + Z.quot (tv_usec tv) 1000).

(** A reading as [gettimeofday] delivers it: seconds since the epoch and
    microseconds below one second. *)
Definition normalised (tv : timeval) : Prop :=
  0 <= tv_sec tv /\ 0 <= tv_usec tv < 1000000.

(** Reading [a] is not later than reading [b]. *)
Definition not_later (a b : timeval) : Prop :=
  tv_sec a < tv_sec b \/ (tv_sec a = tv_sec b /\ tv_usec a <= tv_usec b).

(** A configuration call on an instance, as made through its three setter
    pointers, and a sequence of such calls. *)
Inductive config_op : Type :=
| OpSetPrint (state : bool)
| OpShowTime (state : bool)
| OpSetLogCallback (callback : idflog_callback_t).

Definition apply_op (self : slog_t) (op : config_op) : slog_t :=
  match op with
  | OpSetPrint state => slog_set_print self state
  | OpShowTime state => slog_show_time self state
  | OpSetLogCallback callback => slog_set_log_callback self callback
  end.

Definition apply_ops (self : slog_t) (ops : list config_op) : slog_t :=
  fold_left apply_op ops self.

(** The same three calls on the standalone surface. *)
Definition idflog_op (op : config_op) : M unit :=
  match op with
  | OpSetPrint state => idflog_set_print state
  | OpShowTime state => idflog_show_time state
  | OpSetLogCallback callback => idflog_set_callback callback
  end.

(** Log calls made one after the other. *)
Fixpoint run_all (calls : list (M unit)) : M unit :=
  match calls with
  | [] => ret tt
  | m :: rest => m ;;; run_all rest
  end.



(** The timestamps handed to the callback among some events, in order. *)
Definition callback_times (evs : list event) : list Z :=
  map (fun c => snd (fst c)) (callbacks evs).


(** Reading a run of decimal digits back as a number. *)
Definition digit_value (c : ascii) : Z := Z.of_nat (nat_of_ascii c) - 48.

Fixpoint parse_lu (s : string) (acc : Z) : Z :=
  match s with
  | EmptyString => acc
  | String c r => parse_lu r (acc * 10 + digit_value c)
  end.

(** The events of [evs] that are [ESP_LOGI] lines. *)
Fixpoint esp_logged (evs : list event) : list (string * string) :=
  match evs with
  | [] => []
  | EvEspLogI tag text :: rest => (tag, text) :: esp_logged rest
  | _ :: rest => esp_logged rest
  end.

(** ** The example's callback *)

(** [%d]: a signed decimal. *)
Definition fmt_d (z : Z) : string :=
  if z <? 0 then "-" ++ fmt_lu (- z) else fmt_lu z.

(** [custom_log_callback] of examples/example_usage.c: one [printf] with no
    line terminator of its own. *)
Definition custom_log_callback (level : idflog_level_t) (timestamp : Z)
  (message : string) : M unit :=
  printf ("CALLBACK: [" ++ fmt_lu timestamp ++ "] Level=" ++ fmt_d level
          ++ " Message=" ++ message).

(** Replaying some events with a given function behind the callback
    pointer: each callback invocation runs the function on its three
    arguments, every other event happens as recorded. *)
Fixpoint replay (handler : idflog_level_t -> Z -> string -> M unit)
  (evs : list event) : M unit :=
  match evs with
  | [] => ret tt
  | EvCallback _ level timestamp message :: rest =>
      handler level timestamp message ;;; replay handler rest
  | ev :: rest => emit ev ;;; replay handler rest
  end.

(** ** The formatting functions with their arrays

    The same functions once more, with the [char] arrays they declare and
    the stores [snprintf] and [vsnprintf] make into them.  A store outside
    an array ends the run with no result. *)









(** * Properties *)

(** ** Strings *)

Lemma append_assoc (a b c : string) : (a ++ b) ++ c = a ++ (b ++ c).
Proof.
  induction a as [|ch a IH]; simpl; [reflexivity | now rewrite IH].
Qed.

Lemma append_length (a b : string) :
  String.length (a ++ b) = (String.length a + String.length b)%nat.
Proof.
  induction a as [|ch a IH]; simpl; [reflexivity | now rewrite IH].
Qed.

Lemma take_length (n : nat) (s : string) :
  (String.length (take n s) <= n)%nat.
Proof.
  revert s; induction n as [|n IH]; intros [|c r]; simpl; try lia.
  specialize (IH r); lia.
Qed.

Lemma take_length_min (n : nat) (s : string) :
  String.length (take n s) = Nat.min n (String.length s).
Proof.
  revert s; induction n as [|n IH]; intros [|c r]; simpl; try reflexivity.
  now rewrite IH.
Qed.

Lemma take_fits (n : nat) (s : string) :
  (String.length s <= n)%nat -> take n s = s.
Proof.
  revert s; induction n as [|n IH]; intros [|c r]; simpl; intros H;
    try reflexivity; try lia.
  rewrite IH; [reflexivity | lia].
Qed.

Lemma take_append (n : nat) (a b : string) :
  (String.length a <= n)%nat ->
  take n (a ++ b) = a ++ take (n - String.length a) b.
Proof.
  revert n; induction a as [|c a IH]; intros n H.
  - simpl; now rewrite Nat.sub_0_r.
  - destruct n as [|n]; [simpl in H; lia|].
    cbn [append take String.length]; rewrite IH by (simpl in H; lia).
    reflexivity.
Qed.

Lemma take_is_prefix (n : nat) (s : string) :
  String.prefix (take n s) s = true.
Proof.
  revert s; induction n as [|n IH]; intros [|c r]; simpl; try reflexivity.
  destruct (ascii_dec c c) as [_|ne]; [apply IH | now elim ne].
Qed.

Lemma prefix_append (a b : string) : String.prefix a (a ++ b) = true.
Proof.
  induction a as [|c a IH]; simpl.
  - now destruct b.
  - destruct (ascii_dec c c) as [_|ne]; [exact IH | now elim ne].
Qed.

Lemma contains_prefix (sub s : string) :
  String.prefix sub s = true -> contains sub s = true.
Proof.
  intros H; destruct s; cbn [contains]; rewrite H; reflexivity.
Qed.

Lemma contains_middle (pre sub post : string) :
  contains sub (pre ++ sub ++ post) = true.
Proof.
  induction pre as [|c pre IH]; simpl.
  - apply contains_prefix, prefix_append.
  - rewrite IH; apply orb_true_r.
Qed.

Lemma ends_with_append (pre suffix : string) :
  ends_with (pre ++ suffix) suffix = true.
Proof.
  induction pre as [|c pre IH]; simpl.
  - destruct suffix; simpl; [reflexivity|].
    rewrite Ascii.eqb_refl, String.eqb_refl; reflexivity.
  - rewrite IH; apply orb_true_r.
Qed.

Lemma count_nl_append (a b : string) :
  count_nl (a ++ b) = (count_nl a + count_nl b)%nat.
Proof.
  induction a as [|c a IH]; simpl; [reflexivity | rewrite IH; lia].
Qed.

(** ** Decimal digits *)

Lemma digits_length (fuel : nat) (n : Z) (acc : string) :
  (String.length (digits fuel n acc) <= fuel + String.length acc)%nat.
Proof.
  revert n acc; induction fuel as [|f IH]; intros n acc;
    cbn [digits]; [lia|].
  destruct (n / 10 =? 0); [cbn [String.length]; lia|].
  specialize (IH (n / 10) (String (digit (n mod 10)) acc)).
  cbn [String.length] in IH; lia.
Qed.

Lemma fmt_lu_length (n : Z) : (String.length (fmt_lu n) <= 20)%nat.
Proof.
  exact (digits_length 20 n "").
Qed.

Lemma digit_not_nl (n : Z) :
  Ascii.eqb (digit (n mod 10)) (ascii_of_nat 10) = false.
Proof.
  pose proof (Z.mod_pos_bound n 10 ltac:(lia)) as B.
  assert (C : n mod 10 = 0 \/ n mod 10 = 1 \/ n mod 10 = 2 \/ n mod 10 = 3
              \/ n mod 10 = 4 \/ n mod 10 = 5 \/ n mod 10 = 6
              \/ n mod 10 = 7 \/ n mod 10 = 8 \/ n mod 10 = 9) by lia.
  repeat (destruct C as [E|C]; [rewrite E; reflexivity|]).
  rewrite C; reflexivity.
Qed.

Lemma digits_count_nl (fuel : nat) (n : Z) (acc : string) :
  count_nl (digits fuel n acc) = count_nl acc.
Proof.
  revert n acc; induction fuel as [|f IH]; intros n acc; cbn [digits];
    [reflexivity|].
  destruct (n / 10 =? 0).
  - cbn [count_nl]; now rewrite digit_not_nl.
  - rewrite IH; cbn [count_nl]; now rewrite digit_not_nl.
Qed.

Lemma fmt_lu_count_nl (n : Z) : count_nl (fmt_lu n) = O.
Proof. unfold fmt_lu; now rewrite digits_count_nl. Qed.

(** ** Level tags *)

Lemma slog_level_name_brackets (level : idflog_level_t) :
  slog_level_name level = "[" ++ get_level_name level ++ "]".
Proof.
  destruct level as [|p|p]; try reflexivity.
  do 3 (destruct p as [p|p|]; try reflexivity).
Qed.


Lemma get_level_name_length (level : idflog_level_t) :
  (String.length (get_level_name level) <= 7)%nat.
Proof.
  destruct level as [|p|p]; simpl; try lia.
  do 3 (destruct p as [p|p|]; simpl; try lia).
Qed.

Lemma get_level_name_count_nl (level : idflog_level_t) :
  count_nl (get_level_name level) = O.
Proof.
  destruct level as [|p|p]; try reflexivity.
  do 3 (destruct p as [p|p|]; try reflexivity).
Qed.

(** ** Running the two dispatchers *)

Lemma skipn_own_length {A} (l x : list A) :
  skipn (List.length l) (l ++ x)%list = x.
Proof. induction l as [|a l IH]; simpl; [reflexivity | exact IH]. Qed.

Lemma emitted_of_trace {A} (m : M A) (g : world) (evs : list event) :
  trace (exec m g) = (trace g ++ evs)%list -> emitted m g = evs.
Proof. unfold emitted; intros ->; apply skipn_own_length. Qed.

Lemma slog_send_logs_exec (self : slog_t) (level : idflog_level_t)
  (message : string) (g : world) :
  exec (slog_send_logs self level message) g =
  mk_world (print_enabled g) (show_time_enabled g) (log_callback g)
    (slog g) (clock g) (S (reads g))
    (trace g ++
     sink_events (_print self) (logging_callback self) level (now_ms g)
       (snprintf 512 (slog_line (_time self) (now_ms g) level message))
       (snprintf 512 (slog_line (_time self) (now_ms g) level message))).
Proof.
  unfold exec, slog_send_logs, get_millis, gettimeofday, bind, ret, when,
    call, printf, emit, sink_events, now_ms, slog_line.
  destruct (N.eqb (logging_callback self) NULL), (_print self),
    (_time self);
    cbn [negb snd trace print_enabled show_time_enabled log_callback slog
         clock reads app];
    rewrite ?app_nil_r, <- ?app_assoc; reflexivity.
Qed.

Lemma send_logs_exec (level : idflog_level_t) (message : string) (g : world) :
  exec (send_logs level message) g =
  mk_world (print_enabled g) (show_time_enabled g) (log_callback g)
    (slog g) (clock g) (S (reads g))
    (trace g ++
     sink_events (print_enabled g) (log_callback g) level (now_ms g)
       message
       (idflog_line (show_time_enabled g) (now_ms g) level message)).
Proof.
  unfold exec, send_logs, get_timestamp_ms, gettimeofday, bind, ret, when,
    read, call, printf, emit, sink_events, now_ms, idflog_line.
  cbn [snd trace print_enabled show_time_enabled log_callback slog clock
       reads].
  destruct (N.eqb (log_callback g) NULL), (print_enabled g),
    (show_time_enabled g);
    cbn [negb snd trace print_enabled show_time_enabled log_callback slog
         clock reads app];
    rewrite ?app_nil_r, <- ?app_assoc; reflexivity.
Qed.

Lemma slog_send_logs_emitted (self : slog_t) (level : idflog_level_t)
  (message : string) (g : world) :
  emitted (slog_send_logs self level message) g =
  sink_events (_print self) (logging_callback self) level (now_ms g)
    (snprintf 512 (slog_line (_time self) (now_ms g) level message))
    (snprintf 512 (slog_line (_time self) (now_ms g) level message)).
Proof.
  apply emitted_of_trace; rewrite slog_send_logs_exec; reflexivity.
Qed.

Lemma send_logs_emitted (level : idflog_level_t) (message : string)
  (g : world) :
  emitted (send_logs level message) g =
  sink_events (print_enabled g) (log_callback g) level (now_ms g)
    message (idflog_line (show_time_enabled g) (now_ms g) level message).
Proof.
  apply emitted_of_trace; rewrite send_logs_exec; reflexivity.
Qed.

(** The composed line of a formatted method always fits its 512 buffer. *)
Lemma slog_line_of_buffer_fits (show : bool) (time : Z)
  (level : idflog_level_t) (expansion : string) :
  (String.length (slog_line show time level (snprintf 256 expansion)) <= 511)%nat.
Proof.
  pose proof (fmt_lu_length time) as Ht.
  pose proof (get_level_name_length level) as Hl.
  pose proof (take_length 255 expansion) as Hm.
  unfold slog_line, snprintf; rewrite slog_level_name_brackets.
  change (256 - 1)%nat with 255%nat.
  destruct show; repeat rewrite append_length; cbn [String.length NL]; lia.
Qed.

Lemma snprintf_fits (size : nat) (out : string) :
  (String.length out <= size - 1)%nat -> snprintf size out = out.
Proof. apply take_fits. Qed.

(** ** Every entry point ends in its dispatcher *)

Lemma invoke_sends (f : fnptr) (self : slog_t) (a : log_args) (m : M unit) :
  invoke f self a = Some m ->
  exists level message,
    m = slog_send_logs self level message /\
    (forall ex, a = ArgFormat ex -> message = snprintf 256 ex) /\
    (forall l ex, a = ArgLevelFormat l ex ->
                  level = l /\ message = snprintf 256 ex) /\
    (forall msg, a = ArgMsg msg -> message = msg) /\
    (forall l msg, a = ArgLevelMsg l msg -> level = l /\ message = msg).
Proof.
  intros H.
  destruct f, a; simpl in H; try discriminate;
    injection H as <-;
    eexists; eexists; (split; [reflexivity|]);
    repeat split; intros; try discriminate;
    match goal with E : _ = _ |- _ => now inversion E end.
Qed.

Lemma idflog_call_sends (f : idflog_fn) (expansion : string) :
  exists level,
    idflog_call f expansion = send_logs level (snprintf 256 expansion) /\
    (forall l, f = f_idflog_log l -> level = l).
Proof.
  destruct f; eexists; (split; [reflexivity|]); intros; try discriminate.
  match goal with E : _ = _ |- _ => now inversion E end.
Qed.

(** ** The two layouts against the specification's formatter *)



Lemma sink_events_callbacks (print : bool) (cb : idflog_callback_t)
  (level : idflog_level_t) (t : Z) (a b : string) :
  callbacks (sink_events print cb level t a b)
  = if N.eqb cb NULL then [] else [(cb, level, t, a)].
Proof.
  unfold sink_events; destruct (N.eqb cb NULL), print; reflexivity.
Qed.

Lemma sink_events_printed (print : bool) (cb : idflog_callback_t)
  (level : idflog_level_t) (t : Z) (a b : string) :
  printed (sink_events print cb level t a b) = if print then [b] else [].
Proof.
  unfold sink_events; destruct (N.eqb cb NULL), print; reflexivity.
Qed.

Lemma registered (cb : idflog_callback_t) :
  cb <> NULL -> N.eqb cb NULL = false.
Proof. intros H; now apply N.eqb_neq. Qed.

(** * The claims *)

(** ** C1: what the callback is handed on each surface *)




(** ** C2: initialisation *)

(** C2 (as stated, refuted).  After the three standalone setters have
    changed the process-wide configuration, [idflog_init] leaves it as the
    setters wrote it: a state read does not yield
    {printEnabled: true, showTime: true, callback: none}, and a following
    standalone log call still prints nothing. *)
Lemma idflog_init_keeps_standalone_config :
  let g :=
    exec (idflog_set_print false ;;; idflog_show_time false ;;;
          idflog_set_callback 9%N ;;; idflog_init)
         (world_at_load fixed_clock) in
  idflog_config g = (false, false, 9%N)
  /\ idflog_config g <> (true, true, NULL)
  /\ printed (emitted (idflog_info "X") g) = [].
Proof.
  cbv zeta; repeat split; try (vm_compute; reflexivity).
  vm_compute; discriminate.
Qed.

(** C2 (amended).  [slog_init] is idempotent and, whatever the instance held
    before, a state read right after it yields
    {printEnabled: true, showTime: true, callback: none}.  [idflog_init]
    does exactly that to the global [slog] instance, any number of times,
    and leaves the standalone configuration (the three statics written by
    [idflog_set_print], [idflog_show_time] and [idflog_set_callback]) as it
    was; that configuration holds the same three values at program start. *)
Theorem initialize_resets_instance
  (s : slog_t) (g : world) (clk : nat -> timeval) :
  slog_config (slog_init s) = (true, true, NULL)
  /\ slog_init (slog_init s) = slog_init s
  /\ slog (exec idflog_init g) = slog_init (slog g)
  /\ slog_config (slog (exec idflog_init g)) = (true, true, NULL)
  /\ slog (exec (idflog_init ;;; idflog_init) g) = slog (exec idflog_init g)
  /\ idflog_config (exec idflog_init g) = idflog_config g
  /\ idflog_config (world_at_load clk) = (true, true, NULL).
Proof.
  repeat split.
Qed.

(** ** C10: the setters write one field each *)

(** C10.  On the instance surface each setter stores its argument in its own
    field and leaves the other two configuration fields and all seventeen
    method pointers as they were; on the standalone surface each setter
    stores its argument in its own static and leaves the other two statics
    (and the global instance, the clock and the trace) as they were. *)
Theorem setters_write_one_field
  (self : slog_t) (g : world) (state : bool) (callback : idflog_callback_t) :
  (_print (slog_set_print self state) = state
   /\ _time (slog_set_print self state) = _time self
   /\ logging_callback (slog_set_print self state) = logging_callback self
   /\ methods (slog_set_print self state) = methods self)
  /\ (_time (slog_show_time self state) = state
      /\ _print (slog_show_time self state) = _print self
      /\ logging_callback (slog_show_time self state) = logging_callback self
      /\ methods (slog_show_time self state) = methods self)
  /\ (logging_callback (slog_set_log_callback self callback) = callback
      /\ _print (slog_set_log_callback self callback) = _print self
      /\ _time (slog_set_log_callback self callback) = _time self
      /\ methods (slog_set_log_callback self callback) = methods self)
  /\ exec (idflog_set_print state) g
     = mk_world state (show_time_enabled g) (log_callback g)
         (slog g) (clock g) (reads g) (trace g)
  /\ exec (idflog_show_time state) g
     = mk_world (print_enabled g) state (log_callback g)
         (slog g) (clock g) (reads g) (trace g)
  /\ exec (idflog_set_callback callback) g
     = mk_world (print_enabled g) (show_time_enabled g) callback
         (slog g) (clock g) (reads g) (trace g).
Proof.
  repeat split.
Qed.

(** ** C5: the level-tag mapping *)

Lemma unknown_level (level : idflog_level_t) :
  enumerated level = false ->
  get_level_name level = "UNKNOWN" /\ slog_level_name level = "[UNKNOWN]".
Proof.
  intros Hout.
  destruct level as [|p|p]; [discriminate Hout | | split; reflexivity].
  do 3 (destruct p as [p|p|]; try (split; reflexivity);
        try discriminate Hout).
Qed.

Lemma enumerated_levels (level : idflog_level_t) :
  enumerated level = true ->
  In level [IDFLOG_DEBUG; IDFLOG_INFO; IDFLOG_ERROR;
            IDFLOG_VERBOSE; IDFLOG_WARNING; IDFLOG_WTF].
Proof.
  unfold enumerated; intros H.
  apply andb_true_iff in H as [H0 H5].
  apply Z.leb_le in H0; apply Z.leb_le in H5.
  unfold IDFLOG_DEBUG, IDFLOG_INFO, IDFLOG_ERROR, IDFLOG_VERBOSE,
    IDFLOG_WARNING, IDFLOG_WTF; simpl.
  assert (level = 0 \/ level = 1 \/ level = 2 \/ level = 3 \/ level = 4
          \/ level = 5) by lia.
  intuition congruence.
Qed.

(** C5.  The two tag functions map Debug, Info, Error, Verbose, Warning and
    Wtf to their names (bracketed on the instance surface) and every level
    value outside these six to "UNKNOWN" / "[UNKNOWN]".  Every log entry
    point renders with that mapping and never fails: each of the twelve
    level-named methods of the instance surface and each of the six
    level-named standalone functions prints the tag of its own level, and
    the generic entry points of both surfaces print the tag of the level
    they are given, whatever that level is; out of range that tag is
    "UNKNOWN" (bracketed "[UNKNOWN]" on the instance surface). *)
Theorem level_tag_mapping_total
  (level : idflog_level_t) (self : slog_t) (g : world)
  (msg expansion : string) :
  let t := now_ms g in
  let stamp := if _time self then fmt_lu t ++ " " else "" in
  let stamp' := if show_time_enabled g then "[" ++ fmt_lu t ++ "] " else "" in
  let instance_prints (tag text : string) :=
    if _print self
    then [snprintf 512 (stamp ++ "[" ++ tag ++ "]: " ++ text ++ NL)]
    else [] in
  let standalone_prints (tag text : string) :=
    if print_enabled g
    then [stamp' ++ "[" ++ tag ++ "] " ++ text ++ NL]
    else [] in
  map get_level_name
      [IDFLOG_DEBUG; IDFLOG_INFO; IDFLOG_ERROR;
       IDFLOG_VERBOSE; IDFLOG_WARNING; IDFLOG_WTF]
    = ["DEBUG"; "INFO"; "ERROR"; "VERBOSE"; "WARNING"; "WTF"]
  /\ map slog_level_name
       [IDFLOG_DEBUG; IDFLOG_INFO; IDFLOG_ERROR;
        IDFLOG_VERBOSE; IDFLOG_WARNING; IDFLOG_WTF]
     = ["[DEBUG]"; "[INFO]"; "[ERROR]"; "[VERBOSE]"; "[WARNING]"; "[WTF]"]
  /\ (enumerated level = true ->
      In level [IDFLOG_DEBUG; IDFLOG_INFO; IDFLOG_ERROR;
                IDFLOG_VERBOSE; IDFLOG_WARNING; IDFLOG_WTF])
  /\ (enumerated level = false ->
      get_level_name level = "UNKNOWN"
      /\ slog_level_name level = "[UNKNOWN]"
      /\ printed (emitted (slog_log self level msg) g)
         = instance_prints "UNKNOWN" msg
      /\ printed (emitted (slog_log_format self level expansion) g)
         = instance_prints "UNKNOWN" (snprintf 256 expansion)
      /\ printed (emitted (idflog_log level expansion) g)
         = standalone_prints "UNKNOWN" (snprintf 256 expansion))
  /\ Forall
       (fun p => printed (emitted (fst p self msg) g)
                 = instance_prints (snd p) msg)
       [(slog_d, "DEBUG"); (slog_e, "ERROR"); (slog_i, "INFO");
        (slog_v, "VERBOSE"); (slog_w, "WARNING"); (slog_wtf, "WTF")]
  /\ Forall
       (fun p => printed (emitted (fst p self expansion) g)
                 = instance_prints (snd p) (snprintf 256 expansion))
       [(slog_d_format, "DEBUG"); (slog_e_format, "ERROR");
        (slog_i_format, "INFO"); (slog_v_format, "VERBOSE");
        (slog_w_format, "WARNING"); (slog_wtf_format, "WTF")]
  /\ Forall
       (fun p => printed (emitted (fst p expansion) g)
                 = standalone_prints (snd p) (snprintf 256 expansion))
       [(idflog_debug, "DEBUG"); (idflog_info, "INFO");
        (idflog_error, "ERROR"); (idflog_verbose, "VERBOSE");
        (idflog_warning, "WARNING"); (idflog_wtf, "WTF")]
  /\ printed (emitted (slog_log self level msg) g)
     = instance_prints (get_level_name level) msg
  /\ printed (emitted (slog_log_format self level expansion) g)
     = instance_prints (get_level_name level) (snprintf 256 expansion)
  /\ printed (emitted (idflog_log level expansion) g)
     = standalone_prints (get_level_name level) (snprintf 256 expansion).
Proof.
  cbv zeta.
  assert (Hinst : forall lvl text,
             printed (emitted (slog_send_logs self lvl text) g)
             = if _print self
               then [snprintf 512
                       ((if _time self then fmt_lu (now_ms g) ++ " " else "")
                        ++ "[" ++ get_level_name lvl ++ "]: " ++ text ++ NL)]
               else []).
  { intros lvl text.
    rewrite slog_send_logs_emitted, sink_events_printed.
    unfold slog_line; rewrite slog_level_name_brackets.
    destruct (_time self); repeat rewrite append_assoc; reflexivity. }
  assert (Halone : forall lvl text,
             printed (emitted (send_logs lvl text) g)
             = if print_enabled g
               then [(if show_time_enabled g
                      then "[" ++ fmt_lu (now_ms g) ++ "] " else "")
                     ++ "[" ++ get_level_name lvl ++ "] " ++ text ++ NL]
               else []).
  { intros lvl text.
    rewrite send_logs_emitted, sink_events_printed.
    unfold idflog_line.
    destruct (show_time_enabled g); repeat rewrite append_assoc;
      reflexivity. }
  split; [reflexivity|]. split; [reflexivity|].
  split; [apply enumerated_levels|].
  split.
  { intros Hout; destruct (unknown_level level Hout) as [Hg Hs].
    split; [exact Hg|]. split; [exact Hs|].
    unfold slog_log, slog_log_format, idflog_log.
    rewrite !Hinst, Halone, Hg; repeat split. }
  split; [repeat constructor; apply Hinst|].
  split; [repeat constructor; apply Hinst|].
  split; [repeat constructor; apply Halone|].
  split; [apply Hinst|].
  split; [apply Hinst | apply Halone].
Qed.

Lemma level_tag_mapping_total_witness :
  enumerated 77 = false
  /\ get_level_name 77 = "UNKNOWN"
  /\ slog_level_name 77 = "[UNKNOWN]"
  /\ printed (emitted (slog_log demo_self 77 "X") demo_world)
     = ["1234567 [UNKNOWN]: X" ++ NL]
  /\ printed (emitted (idflog_log 77 "X") demo_world)
     = ["[1234567] [UNKNOWN] X" ++ NL]
  /\ printed (emitted (slog_log demo_self IDFLOG_WARNING "X") demo_world)
     = ["1234567 [WARNING]: X" ++ NL].
Proof.
  split; [reflexivity|].
  destruct (level_tag_mapping_total 77 demo_self demo_world "X" "X")
    as (_ & _ & _ & Hout & _).
  destruct (Hout eq_refl) as (Hg & Hs & Hi & _ & Hl).
  split; [exact Hg|]. split; [exact Hs|].
  split; [rewrite Hi; vm_compute; reflexivity|].
  split; [rewrite Hl; vm_compute; reflexivity|].
  destruct (level_tag_mapping_total IDFLOG_WARNING demo_self demo_world
              "X" "X") as (_ & _ & _ & _ & _ & _ & _ & Hw & _).
  rewrite Hw; vm_compute; reflexivity.
Defined.

(** ** C6: the two sinks are gated independently *)

(** C6.  After printing is disabled and a callback is set, a single log call
    invokes that callback exactly once and writes nothing to the console;
    after printing is enabled and the callback is cleared, a single log call
    writes to the console exactly once and invokes no callback.  This holds
    for the two dispatchers and for every log entry point of both
    surfaces. *)
Theorem sinks_gated_independently
  (self : slog_t) (g : world) (cb : idflog_callback_t)
  (level : idflog_level_t) (message : string)
  (Hcb : cb <> NULL) :
  let t := now_ms g in
  let only_cb := slog_set_log_callback (slog_set_print self false) cb in
  let only_print := slog_set_log_callback (slog_set_print self true) NULL in
  let g_cb := exec (idflog_set_print false ;;; idflog_set_callback cb) g in
  let g_print :=
    exec (idflog_set_print true ;;; idflog_set_callback NULL) g in
  (emitted (slog_send_logs only_cb level message) g
   = [EvCallback cb level t
        (snprintf 512 (slog_line (_time self) t level message))])
  /\ (emitted (slog_send_logs only_print level message) g
      = [EvPrintf (snprintf 512 (slog_line (_time self) t level message))])
  /\ (emitted (send_logs level message) g_cb
      = [EvCallback cb level t message])
  /\ (emitted (send_logs level message) g_print
      = [EvPrintf (idflog_line (show_time_enabled g) t level message)])
  /\ (forall f a m, invoke f only_cb a = Some m ->
      List.length (callbacks (emitted m g)) = 1%nat
      /\ printed (emitted m g) = [])
  /\ (forall f a m, invoke f only_print a = Some m ->
      List.length (printed (emitted m g)) = 1%nat
      /\ callbacks (emitted m g) = [])
  /\ (forall f ex,
      List.length (callbacks (emitted (idflog_call f ex) g_cb)) = 1%nat
      /\ printed (emitted (idflog_call f ex) g_cb) = [])
  /\ (forall f ex,
      List.length (printed (emitted (idflog_call f ex) g_print)) = 1%nat
      /\ callbacks (emitted (idflog_call f ex) g_print) = []).
Proof.
  cbv zeta.
  pose proof (registered cb Hcb) as Hreg.
  repeat match goal with |- _ /\ _ => split end.
  - rewrite slog_send_logs_emitted; unfold sink_events; simpl.
    rewrite Hreg; reflexivity.
  - rewrite slog_send_logs_emitted; reflexivity.
  - rewrite send_logs_emitted; unfold sink_events; simpl.
    rewrite Hreg; reflexivity.
  - rewrite send_logs_emitted; reflexivity.
  - intros f a m Hm.
    destruct (invoke_sends _ _ _ _ Hm) as (lvl & txt & -> & _).
    rewrite slog_send_logs_emitted, sink_events_callbacks,
      sink_events_printed; simpl.
    rewrite Hreg; split; reflexivity.
  - intros f a m Hm.
    destruct (invoke_sends _ _ _ _ Hm) as (lvl & txt & -> & _).
    rewrite slog_send_logs_emitted, sink_events_callbacks,
      sink_events_printed; split; reflexivity.
  - intros f ex.
    destruct (idflog_call_sends f ex) as (lvl & -> & _).
    rewrite send_logs_emitted, sink_events_callbacks,
      sink_events_printed; simpl.
    rewrite Hreg; split; reflexivity.
  - intros f ex.
    destruct (idflog_call_sends f ex) as (lvl & -> & _).
    rewrite send_logs_emitted, sink_events_callbacks,
      sink_events_printed; split; reflexivity.
Qed.

Lemma sinks_gated_independently_witness :
  (9%N : idflog_callback_t) <> NULL
  /\ emitted
       (slog_i (slog_set_log_callback
                  (slog_set_print (slog_init slog_zeroed) false) 9%N) "X")
       (world_at_load fixed_clock)
     = [EvCallback 9%N IDFLOG_INFO 1234567 ("1234567 [INFO]: X" ++ NL)]
  /\ emitted (send_logs IDFLOG_INFO "X")
       (exec (idflog_set_print true ;;; idflog_set_callback NULL)
             (world_at_load fixed_clock))
     = [EvPrintf ("[1234567] [INFO] X" ++ NL)].
Proof.
  split; [vm_compute; discriminate|].
  destruct (sinks_gated_independently (slog_init slog_zeroed)
              (world_at_load fixed_clock) 9%N IDFLOG_INFO "X"
              ltac:(vm_compute; discriminate))
    as (Hi & _ & _ & Hs & _).
  split; [unfold slog_i; rewrite Hi | rewrite Hs]; vm_compute; reflexivity.
Defined.

(** ** C7: callback first, console second *)



(** ** C9: one clock reading per log call *)

(** C9.  Every log call of either surface takes exactly one clock reading;
    the value read is the second argument of the callback invocation,
    whether or not timestamps are shown, and it is the value whose digits
    are rendered into the console line when timestamps are shown (on the
    instance surface they open the line and survive the 512 bound). *)
Theorem timestamp_sampled_once
  (self : slog_t) (g : world) (level : idflog_level_t) (message : string) :
  let t := now_ms g in
  reads (exec (slog_send_logs self level message) g) = S (reads g)
  /\ callbacks (emitted (slog_send_logs self level message) g)
     = (if N.eqb (logging_callback self) NULL then []
        else [(logging_callback self, level, t,
               snprintf 512 (slog_line (_time self) t level message))])
  /\ printed (emitted (slog_send_logs self level message) g)
     = (if _print self
        then [if _time self
              then fmt_lu t
                   ++ take (511 - String.length (fmt_lu t))
                        (" " ++ slog_level_name level ++ ": "
                         ++ message ++ NL)
              else snprintf 512
                     (slog_level_name level ++ ": " ++ message ++ NL)]
        else [])
  /\ reads (exec (send_logs level message) g) = S (reads g)
  /\ callbacks (emitted (send_logs level message) g)
     = (if N.eqb (log_callback g) NULL then []
        else [(log_callback g, level, t, message)])
  /\ printed (emitted (send_logs level message) g)
     = (if print_enabled g
        then [(if show_time_enabled g then "[" ++ fmt_lu t ++ "] " else "")
              ++ "[" ++ get_level_name level ++ "] " ++ message ++ NL]
        else [])
  /\ (forall f a m, invoke f self a = Some m ->
      reads (exec m g) = S (reads g)
      /\ forall c, In c (callbacks (emitted m g)) -> snd (fst c) = t)
  /\ (forall f ex,
      reads (exec (idflog_call f ex) g) = S (reads g)
      /\ forall c, In c (callbacks (emitted (idflog_call f ex) g)) ->
                   snd (fst c) = t).
Proof.
  cbv zeta.
  rewrite slog_send_logs_emitted, send_logs_emitted.
  rewrite !sink_events_callbacks, !sink_events_printed.
  rewrite slog_send_logs_exec, send_logs_exec.
  unfold slog_line, idflog_line.
  repeat match goal with |- _ /\ _ => split end; try reflexivity.
  - destruct (_time self); [|reflexivity].
    unfold snprintf; rewrite take_append; [reflexivity|].
    pose proof (fmt_lu_length (now_ms g)); simpl; lia.
  - destruct (show_time_enabled g); repeat rewrite append_assoc; reflexivity.
  - intros f a m H.
    destruct (invoke_sends _ _ _ _ H) as (lvl & txt & -> & _).
    split; [rewrite slog_send_logs_exec; reflexivity|].
    intros c; rewrite slog_send_logs_emitted, sink_events_callbacks.
    destruct (N.eqb (logging_callback self) NULL); simpl; [tauto|].
    intros [<-|[]]; reflexivity.
  - intros f ex.
    destruct (idflog_call_sends f ex) as (lvl & -> & _).
    split; [rewrite send_logs_exec; reflexivity|].
    intros c; rewrite send_logs_emitted, sink_events_callbacks.
    destruct (N.eqb (log_callback g) NULL); simpl; [tauto|].
    intros [<-|[]]; reflexivity.
Qed.

(** ** C3: tag and tail of the rendered line *)

Lemma slog_line_count_nl (time : Z) (level : idflog_level_t)
  (message : string) :
  count_nl (slog_line true time level message) = S (count_nl message).
Proof.
  unfold slog_line; rewrite slog_level_name_brackets.
  repeat rewrite count_nl_append.
  rewrite fmt_lu_count_nl, get_level_name_count_nl.
  cbn [count_nl NL Ascii.eqb]; simpl; lia.
Qed.

Lemma idflog_line_count_nl (time : Z) (level : idflog_level_t)
  (message : string) :
  count_nl (idflog_line true time level message) = S (count_nl message).
Proof.
  unfold idflog_line.
  repeat rewrite count_nl_append.
  rewrite fmt_lu_count_nl, get_level_name_count_nl.
  cbn [count_nl NL Ascii.eqb]; simpl; lia.
Qed.

Lemma slog_line_has_tag (show : bool) (time : Z) (level : idflog_level_t)
  (message : string) :
  contains (get_level_name level) (slog_line show time level message) = true.
Proof.
  unfold slog_line; rewrite slog_level_name_brackets.
  destruct show.
  - replace (fmt_lu time ++ " " ++ ("[" ++ get_level_name level ++ "]")
             ++ ": " ++ message ++ NL)
      with ((fmt_lu time ++ " [") ++ get_level_name level
            ++ ("]: " ++ message ++ NL))
      by (repeat rewrite append_assoc; reflexivity).
    apply contains_middle.
  - replace (("[" ++ get_level_name level ++ "]") ++ ": " ++ message ++ NL)
      with ("[" ++ get_level_name level ++ ("]: " ++ message ++ NL))
      by (repeat rewrite append_assoc; reflexivity).
    apply contains_middle.
Qed.

Lemma idflog_line_has_tag (show : bool) (time : Z) (level : idflog_level_t)
  (message : string) :
  contains (get_level_name level) (idflog_line show time level message)
  = true.
Proof.
  unfold idflog_line.
  destruct show.
  - replace ("[" ++ fmt_lu time ++ "] [" ++ get_level_name level ++ "] "
             ++ message ++ NL)
      with (("[" ++ fmt_lu time ++ "] [") ++ get_level_name level
            ++ ("] " ++ message ++ NL))
      by (repeat rewrite append_assoc; reflexivity).
    apply contains_middle.
  - apply contains_middle.
Qed.

Lemma slog_line_tail (show : bool) (time : Z) (level : idflog_level_t)
  (message : string) :
  ends_with (slog_line show time level message) (message ++ NL) = true.
Proof.
  unfold slog_line.
  destruct show.
  - replace (fmt_lu time ++ " " ++ slog_level_name level ++ ": "
             ++ message ++ NL)
      with ((fmt_lu time ++ " " ++ slog_level_name level ++ ": ")
            ++ (message ++ NL))
      by (repeat rewrite append_assoc; reflexivity).
    apply ends_with_append.
  - replace (slog_level_name level ++ ": " ++ message ++ NL)
      with ((slog_level_name level ++ ": ") ++ (message ++ NL))
      by (repeat rewrite append_assoc; reflexivity).
    apply ends_with_append.
Qed.

Lemma idflog_line_tail (show : bool) (time : Z) (level : idflog_level_t)
  (message : string) :
  ends_with (idflog_line show time level message) (message ++ NL) = true.
Proof.
  unfold idflog_line.
  destruct show.
  - replace ("[" ++ fmt_lu time ++ "] [" ++ get_level_name level ++ "] "
             ++ message ++ NL)
      with (("[" ++ fmt_lu time ++ "] [" ++ get_level_name level ++ "] ")
            ++ (message ++ NL))
      by (repeat rewrite append_assoc; reflexivity).
    apply ends_with_append.
  - replace ("[" ++ get_level_name level ++ "] " ++ message ++ NL)
      with (("[" ++ get_level_name level ++ "] ") ++ (message ++ NL))
      by (repeat rewrite append_assoc; reflexivity).
    apply ends_with_append.
Qed.

(** C3 (as stated, refuted).  On the instance surface with timestamps shown,
    logging a message of 600 characters at Info writes a line of 511
    characters that does not end with the message and a line terminator: it
    holds no line terminator at all. *)
Lemma instance_long_line_loses_tail :
  let message := replicate 600 "a" in
  let out :=
    printed (emitted (slog_log (slog_init slog_zeroed) IDFLOG_INFO message)
                     (world_at_load fixed_clock)) in
  List.length out = 1%nat
  /\ String.length (hd "" out) = 511%nat
  /\ ends_with (hd "" out) (message ++ NL) = false
  /\ count_nl (hd "" out) = 0%nat.
Proof.
  cbv zeta; repeat split; vm_compute; reflexivity.
Qed.

(** C3 (amended).  With timestamps shown, for every level L, timestamp and
    message M, the line written by the standalone surface contains the
    literal tag for L and ends with M followed by a single line terminator;
    the line written by the instance surface does so whenever the composed
    line fits the 512-unit line buffer (at most 511 characters), which it
    always does for the messages of the formatted entry points. *)
Theorem rendered_line_tag_and_tail
  (self : slog_t) (g : world) (level : idflog_level_t) (message : string) :
  (show_time_enabled g = true -> print_enabled g = true ->
   exists line,
     printed (emitted (send_logs level message) g) = [line]
     /\ contains (get_level_name level) line = true
     /\ ends_with line (message ++ NL) = true
     /\ count_nl line = S (count_nl message))
  /\ (_time self = true -> _print self = true ->
      (String.length (slog_line true (now_ms g) level message) <= 511)%nat ->
      exists line,
        printed (emitted (slog_send_logs self level message) g) = [line]
        /\ contains (get_level_name level) line = true
        /\ ends_with line (message ++ NL) = true
        /\ count_nl line = S (count_nl message))
  /\ (_time self = true -> _print self = true ->
      forall expansion, exists line,
        printed (emitted (slog_log_format self level expansion) g) = [line]
        /\ contains (get_level_name level) line = true
        /\ ends_with line (snprintf 256 expansion ++ NL) = true
        /\ count_nl line = S (count_nl (snprintf 256 expansion))).
Proof.
  repeat match goal with |- _ /\ _ => split end.
  - intros Htime' Hprint'; eexists.
    rewrite send_logs_emitted, sink_events_printed, Hprint', Htime'.
    split; [reflexivity|].
    split; [apply idflog_line_has_tag|].
    split; [apply idflog_line_tail | apply idflog_line_count_nl].
  - intros Htime Hprint Hfit; eexists.
    rewrite slog_send_logs_emitted, sink_events_printed, Hprint, Htime.
    rewrite (snprintf_fits 512 _ Hfit).
    split; [reflexivity|].
    split; [apply slog_line_has_tag|].
    split; [apply slog_line_tail | apply slog_line_count_nl].
  - intros Htime Hprint expansion; eexists.
    unfold slog_log_format.
    rewrite slog_send_logs_emitted, sink_events_printed, Hprint, Htime.
    rewrite (snprintf_fits 512 _ (slog_line_of_buffer_fits _ _ _ _)).
    split; [reflexivity|].
    split; [apply slog_line_has_tag|].
    split; [apply slog_line_tail | apply slog_line_count_nl].
Qed.

Lemma rendered_line_tag_and_tail_witness :
  (show_time_enabled demo_world = true /\ print_enabled demo_world = true)
  /\ (_time demo_self = true /\ _print demo_self = true)
  /\ (String.length (slog_line true (now_ms demo_world) IDFLOG_ERROR "boom")
      <= 511)%nat
  /\ (exists line,
       printed (emitted (send_logs IDFLOG_ERROR (replicate 600 "a"))
                        demo_world) = [line]
       /\ contains (get_level_name IDFLOG_ERROR) line = true
       /\ ends_with line (replicate 600 "a" ++ NL) = true
       /\ count_nl line = S (count_nl (replicate 600 "a")))
  /\ (exists line,
       printed (emitted (slog_send_logs demo_self IDFLOG_ERROR "boom")
                        demo_world) = [line]
       /\ contains (get_level_name IDFLOG_ERROR) line = true
       /\ ends_with line ("boom" ++ NL) = true
       /\ count_nl line = S (count_nl "boom")).
Proof.
  split; [split; reflexivity|].
  split; [split; reflexivity|].
  split; [vm_compute; lia|].
  split.
  - destruct (rendered_line_tag_and_tail demo_self demo_world IDFLOG_ERROR
                (replicate 600 "a")) as (Hs & _).
    exact (Hs eq_refl eq_refl).
  - destruct (rendered_line_tag_and_tail demo_self demo_world IDFLOG_ERROR
                "boom") as (_ & Hi & _).
    exact (Hi eq_refl eq_refl ltac:(vm_compute; lia)).
Defined.

(** ** C4: the two layouts *)

(** C4 (as stated, refuted).  On the instance surface with timestamps
    hidden, logging a message of 520 characters at Error does not write the
    tag, the message and a line terminator: the line is cut at 511
    characters. *)
Lemma instance_long_line_is_cut :
  let message := replicate 520 "b" in
  let self := slog_show_time (slog_init slog_zeroed) false in
  let out :=
    printed (emitted (slog_e self message) (world_at_load fixed_clock)) in
  out <> ["[ERROR]: " ++ message ++ NL]
  /\ out = ["[ERROR]: " ++ replicate 502 "b"].
Proof.
  cbv zeta; split.
  - intros H; apply (f_equal (fun l => String.length (hd "" l))) in H.
    vm_compute in H; discriminate H.
  - vm_compute; reflexivity.
Qed.

(** C4 (amended).  For every level and message, the standalone surface
    writes "[<timestampMillis>] [<LEVEL_TAG>] <message>" and a line
    terminator with showTime=true, and the same without the bracketed
    timestamp segment with showTime=false; the instance surface writes
    "<timestampMillis> [<LEVEL_TAG>]: <message>" and a line terminator with
    showTime=true, and the same without the timestamp segment with
    showTime=false, whenever that line fits the 512-unit line buffer (at
    most 511 characters).  Logging "X" at Info with showTime=false yields
    exactly "[INFO]: X" plus terminator on the instance surface and
    "[INFO] X" plus terminator on the standalone surface. *)
Theorem rendered_line_layouts
  (self : slog_t) (g : world) (level : idflog_level_t) (message : string) :
  let t := now_ms g in
  let tag := get_level_name level in
  printed (emitted (send_logs level message) g)
    = (if print_enabled g
       then [(if show_time_enabled g then "[" ++ fmt_lu t ++ "] " else "")
             ++ "[" ++ tag ++ "] " ++ message ++ NL]
       else [])
  /\ ((String.length (slog_line (_time self) t level message) <= 511)%nat ->
      printed (emitted (slog_send_logs self level message) g)
      = (if _print self
         then [(if _time self then fmt_lu t ++ " " else "")
               ++ "[" ++ tag ++ "]: " ++ message ++ NL]
         else []))
  /\ printed
       (emitted (slog_i (slog_show_time (slog_set_print self true) false) "X")
                g)
     = ["[INFO]: X" ++ NL]
  /\ printed
       (emitted (idflog_info "X")
                (exec (idflog_set_print true ;;; idflog_show_time false) g))
     = ["[INFO] X" ++ NL].
Proof.
  cbv zeta.
  repeat match goal with |- _ /\ _ => split end.
  - rewrite send_logs_emitted, sink_events_printed.
    unfold idflog_line.
    destruct (print_enabled g), (show_time_enabled g);
      repeat rewrite append_assoc; reflexivity.
  - intros Hfit.
    rewrite slog_send_logs_emitted, sink_events_printed.
    rewrite (snprintf_fits 512 _ Hfit).
    unfold slog_line; rewrite slog_level_name_brackets.
    destruct (_print self), (_time self); repeat rewrite append_assoc;
      reflexivity.
  - unfold slog_i.
    rewrite slog_send_logs_emitted, sink_events_printed; reflexivity.
  - unfold idflog_info.
    rewrite send_logs_emitted, sink_events_printed; reflexivity.
Qed.

Lemma rendered_line_layouts_witness :
  (String.length
     (slog_line (_time demo_self) (now_ms demo_world) IDFLOG_WTF "X")
   <= 511)%nat
  /\ printed (emitted (slog_send_logs demo_self IDFLOG_WTF "X") demo_world)
     = ["1234567 [WTF]: X" ++ NL]
  /\ printed (emitted (send_logs IDFLOG_WTF (replicate 520 "b")) demo_world)
     = ["[1234567] [WTF] " ++ replicate 520 "b" ++ NL].
Proof.
  split; [vm_compute; lia|].
  destruct (rendered_line_layouts demo_self demo_world IDFLOG_WTF "X")
    as (_ & Hi & _).
  destruct (rendered_line_layouts demo_self demo_world IDFLOG_WTF
              (replicate 520 "b")) as (Hs & _).
  split; [rewrite (Hi ltac:(vm_compute; lia)) | rewrite Hs];
    vm_compute; reflexivity.
Defined.

(** ** C8: bounded formatting *)






















(** * Further properties of the code *)

(** ** The clock functions *)

Lemma to_ulong_range (z : Z) : 0 <= to_ulong z < 4294967296.
Proof.
  unfold to_ulong, ULONG_BITS.
  change (2 ^ 32) with 4294967296.
  apply Z.mod_pos_bound; lia.
Qed.

Lemma get_millis_value (g : world) :
  fst (get_millis g) = millis_of (clock g (reads g)).
Proof. reflexivity. Qed.

(** X1.  [get_millis] and [get_timestamp_ms] each take one clock reading, return
    the same value for it and leave the same world; the value lies in
    0 .. 2^32 - 1 whatever the reading; a second call reads the next
    sample. *)
Theorem clock_reading_range (g : world) :
  0 <= fst (get_millis g) < 4294967296
  /\ get_timestamp_ms g = get_millis g
  /\ reads (exec get_millis g) = S (reads g)
  /\ trace (exec get_millis g) = trace g
  /\ idflog_config (exec get_millis g) = idflog_config g
  /\ fst ((get_millis ;;; get_millis) g)
     = millis_of (clock g (S (reads g))).
Proof.
  split; [rewrite get_millis_value; apply to_ulong_range|].
  repeat split.
Qed.

Lemma raw_millis_nonneg (tv : timeval) :
  normalised tv ->
  Z.quot (tv_usec tv) 1000 = tv_usec tv / 1000
  /\ 0 <= tv_usec tv / 1000 < 1000
  /\ 0 <= tv_sec tv * 1000 + tv_usec tv / 1000.
Proof.
  intros [Hs Hu].
  rewrite Z.quot_div_nonneg by lia.
  assert (0 <= tv_usec tv / 1000 < 1000).
  { split; [apply Z.div_pos; lia|].
    apply Z.div_lt_upper_bound; lia. }
  repeat split; lia.
Qed.

(** X2.  For readings as [gettimeofday] delivers them, below 2^32 milliseconds:
    the timestamp is seconds times 1000 plus whole milliseconds of the
    microsecond part, and a reading that is not later gets a timestamp that
    is not larger. *)
Theorem clock_exact_and_monotone (a b : timeval)
  (Ha : normalised a) (Hb : normalised b)
  (Horder : not_later a b)
  (Hrange : tv_sec b * 1000 + tv_usec b / 1000 < 4294967296) :
  millis_of a = tv_sec a * 1000 + tv_usec a / 1000
  /\ millis_of b = tv_sec b * 1000 + tv_usec b / 1000
  /\ millis_of a <= millis_of b.
Proof.
  destruct (raw_millis_nonneg a Ha) as (Qa & Ra & Na).
  destruct (raw_millis_nonneg b Hb) as (Qb & Rb & Nb).
  assert (Hle : tv_sec a * 1000 + tv_usec a / 1000
                <= tv_sec b * 1000 + tv_usec b / 1000).
  { destruct Horder as [Hlt | [Heq Hu]].
    - lia.
    - rewrite Heq.
      pose proof (Z.div_le_mono (tv_usec a) (tv_usec b) 1000
                    ltac:(lia) Hu).
      lia. }
  unfold millis_of, to_ulong, ULONG_BITS.
  change (2 ^ 32) with 4294967296.
  rewrite Qa, Qb.
  rewrite (Z.mod_small (tv_sec a * 1000 + tv_usec a / 1000)) by lia.
  rewrite (Z.mod_small (tv_sec b * 1000 + tv_usec b / 1000)) by lia.
  repeat split; lia.
Qed.

Lemma clock_exact_and_monotone_witness :
  normalised (mk_timeval 1234 567000)
  /\ normalised (mk_timeval 1234 567999)
  /\ not_later (mk_timeval 1234 567000) (mk_timeval 1234 567999)
  /\ millis_of (mk_timeval 1234 567000) = 1234567
  /\ millis_of (mk_timeval 1234 567000)
     <= millis_of (mk_timeval 1234 567999).
Proof.
  assert (Ha : normalised (mk_timeval 1234 567000))
    by (unfold normalised; simpl; lia).
  assert (Hb : normalised (mk_timeval 1234 567999))
    by (unfold normalised; simpl; lia).
  assert (Ho : not_later (mk_timeval 1234 567000) (mk_timeval 1234 567999))
    by (right; simpl; lia).
  split; [exact Ha|]. split; [exact Hb|]. split; [exact Ho|].
  destruct (clock_exact_and_monotone _ _ Ha Hb Ho
              ltac:(vm_compute; reflexivity)) as (Ea & _ & Hle).
  split; [rewrite Ea; reflexivity | exact Hle].
Defined.

(** X3.  The cast to [unsigned long] makes the timestamp wrap: two readings whose
    millisecond counts differ by a multiple of 2^32 get the same
    timestamp. *)
Theorem clock_wraps (a b : timeval) (k : Z)
  (Hfar : tv_sec b * 1000 + Z.quot (tv_usec b) 1000
          = tv_sec a * 1000 + Z.quot (tv_usec a) 1000 + k * 4294967296) :
  millis_of b = millis_of a.
Proof.
  unfold millis_of, to_ulong, ULONG_BITS.
  change (2 ^ 32) with 4294967296.
  rewrite Hfar; apply Z.mod_add; lia.
Qed.

Lemma clock_wraps_witness :
  tv_sec (mk_timeval 4294968 530000) * 1000
    + Z.quot (tv_usec (mk_timeval 4294968 530000)) 1000
  = tv_sec (mk_timeval 1 234000) * 1000
    + Z.quot (tv_usec (mk_timeval 1 234000)) 1000 + 1 * 4294967296
  /\ millis_of (mk_timeval 4294968 530000) = 1234.
Proof.
  split; [reflexivity|].
  rewrite (clock_wraps (mk_timeval 1 234000) (mk_timeval 4294968 530000) 1
             ltac:(reflexivity)).
  reflexivity.
Defined.

(** ** What a log call leaves alone *)

Lemma exec_seq {A B} (m : M A) (k : M B) (g : world) :
  exec (m ;;; k) g = exec k (exec m g).
Proof. unfold exec, bind; destruct (m g); reflexivity. Qed.



Lemma idflog_ops_frame (ops : list config_op) :
  forall g,
    slog (exec (run_all (map idflog_op ops)) g) = slog g
    /\ clock (exec (run_all (map idflog_op ops)) g) = clock g
    /\ reads (exec (run_all (map idflog_op ops)) g) = reads g
    /\ trace (exec (run_all (map idflog_op ops)) g) = trace g.
Proof.
  induction ops as [|op ops IH]; intros g.
  - repeat split.
  - cbn [map run_all]; rewrite exec_seq.
    destruct (IH (exec (idflog_op op) g)) as (Hs & Hc & Hr & Ht).
    rewrite Hs, Hc, Hr, Ht.
    destruct op; repeat split.
Qed.

Lemma slog_send_logs_emitted_same (self : slog_t) (level : idflog_level_t)
  (message : string) (g g' : world) :
  clock g' = clock g -> reads g' = reads g ->
  emitted (slog_send_logs self level message) g'
  = emitted (slog_send_logs self level message) g.
Proof.
  intros Hc Hr; rewrite !slog_send_logs_emitted.
  unfold now_ms; rewrite Hc, Hr; reflexivity.
Qed.

(** X5.  The two surfaces are configured separately.  No sequence of standalone
    setter calls changes what a log call on an instance emits (the global
    instance included), and neither [idflog_init] nor any sequence of setter
    calls on the global instance changes what a standalone log call
    emits. *)
Theorem surfaces_configured_separately
  (self : slog_t) (g : world) (level : idflog_level_t) (message : string)
  (ops : list config_op) :
  emitted (slog_send_logs self level message)
          (exec (run_all (map idflog_op ops)) g)
  = emitted (slog_send_logs self level message) g
  /\ emitted (slog_send_logs (slog g) level message)
             (exec (run_all (map idflog_op ops)) g)
     = emitted (slog_send_logs (slog g) level message) g
  /\ emitted (send_logs level message) (exec idflog_init g)
     = emitted (send_logs level message) g
  /\ emitted (send_logs level message)
             (exec (store_slog (apply_ops (slog g) ops)) g)
     = emitted (send_logs level message) g.
Proof.
  destruct (idflog_ops_frame ops g) as (_ & Hc & Hr & _).
  split; [apply slog_send_logs_emitted_same; assumption|].
  split; [apply slog_send_logs_emitted_same; assumption|].
  split; rewrite !send_logs_emitted; reflexivity.
Qed.

(** ** Neither sink, and sinks that do not interfere *)



(** X7.  Whether the callback is invoked, and with which three arguments,
    does not depend on the print flag, on either surface; on the standalone
    surface it does not depend on the show-time flag either, while on an
    instance the text handed over changes with the show-time flag (the
    timestamp segment comes and goes). *)
Theorem callback_unaffected_by_print_flag
  (self : slog_t) (g : world) (level : idflog_level_t) (message : string)
  (state : bool) :
  callbacks (emitted (slog_send_logs (slog_set_print self state)
                        level message) g)
  = callbacks (emitted (slog_send_logs self level message) g)
  /\ callbacks (emitted (send_logs level message)
                        (exec (idflog_set_print state) g))
     = callbacks (emitted (send_logs level message) g)
  /\ callbacks (emitted (send_logs level message)
                        (exec (idflog_show_time state) g))
     = callbacks (emitted (send_logs level message) g)
  /\ callbacks (emitted (slog_send_logs (slog_show_time self state)
                           level message) g)
     = (if N.eqb (logging_callback self) NULL then []
        else [(logging_callback self, level, now_ms g,
               snprintf 512
                 ((if state then fmt_lu (now_ms g) ++ " " else "")
                  ++ slog_level_name level ++ ": " ++ message ++ NL))]).
Proof.
  rewrite !slog_send_logs_emitted, !send_logs_emitted.
  rewrite !sink_events_callbacks.
  repeat split.
  cbn [slog_show_time _time logging_callback]; unfold slog_line.
  destruct state; repeat rewrite append_assoc; reflexivity.
Qed.

(** ** The setters *)

(** X8.  On both surfaces a setter called twice keeps the last value, setters of
    different fields commute, and writing back the value a field holds
    changes nothing. *)
Theorem setters_compose (self : slog_t) (g : world) (a b : bool)
  (c1 c2 : idflog_callback_t) :
  slog_set_print (slog_set_print self a) b = slog_set_print self b
  /\ slog_show_time (slog_show_time self a) b = slog_show_time self b
  /\ slog_set_log_callback (slog_set_log_callback self c1) c2
     = slog_set_log_callback self c2
  /\ slog_set_print (slog_show_time self a) b
     = slog_show_time (slog_set_print self b) a
  /\ slog_set_print (slog_set_log_callback self c1) b
     = slog_set_log_callback (slog_set_print self b) c1
  /\ slog_show_time (slog_set_log_callback self c1) a
     = slog_set_log_callback (slog_show_time self a) c1
  /\ slog_set_print self (_print self) = self
  /\ slog_show_time self (_time self) = self
  /\ slog_set_log_callback self (logging_callback self) = self
  /\ exec (idflog_set_print a ;;; idflog_set_print b) g
     = exec (idflog_set_print b) g
  /\ exec (idflog_show_time a ;;; idflog_show_time b) g
     = exec (idflog_show_time b) g
  /\ exec (idflog_set_callback c1 ;;; idflog_set_callback c2) g
     = exec (idflog_set_callback c2) g
  /\ exec (idflog_set_print b ;;; idflog_show_time a) g
     = exec (idflog_show_time a ;;; idflog_set_print b) g
  /\ exec (idflog_set_print b ;;; idflog_set_callback c1) g
     = exec (idflog_set_callback c1 ;;; idflog_set_print b) g
  /\ exec (idflog_show_time a ;;; idflog_set_callback c1) g
     = exec (idflog_set_callback c1 ;;; idflog_show_time a) g
  /\ exec (idflog_set_print (print_enabled g)) g = g
  /\ exec (idflog_show_time (show_time_enabled g)) g = g
  /\ exec (idflog_set_callback (log_callback g)) g = g.
Proof.
  destruct self, g; repeat split.
Qed.

Lemma apply_op_config (s : slog_t) (g : world) (op : config_op) :
  slog_config s = idflog_config g ->
  slog_config (apply_op s op) = idflog_config (exec (idflog_op op) g).
Proof.
  unfold slog_config, idflog_config; intros H.
  injection H as Hp Ht Hc.
  destruct op; cbn; congruence.
Qed.

(** X9.  The setters of the two surfaces act alike: from equal configurations,
    the same sequence of setter calls leaves equal configurations, on an
    instance and in the statics. *)
Theorem setter_sequences_agree (s : slog_t) (g : world)
  (ops : list config_op)
  (Hsame : slog_config s = idflog_config g) :
  slog_config (apply_ops s ops)
  = idflog_config (exec (run_all (map idflog_op ops)) g).
Proof.
  revert s g Hsame; induction ops as [|op ops IH]; intros s g Hsame.
  - exact Hsame.
  - cbn [map run_all]; rewrite exec_seq.
    unfold apply_ops; cbn [fold_left].
    apply IH, apply_op_config, Hsame.
Qed.

Lemma setter_sequences_agree_witness :
  let ops := [OpShowTime false; OpSetLogCallback 9%N; OpSetPrint false;
              OpShowTime true] in
  slog_config (slog_init slog_zeroed)
    = idflog_config (world_at_load fixed_clock)
  /\ slog_config (apply_ops (slog_init slog_zeroed) ops) = (false, true, 9%N)
  /\ idflog_config (exec (run_all (map idflog_op ops))
                         (world_at_load fixed_clock))
     = (false, true, 9%N).
Proof.
  cbv zeta.
  split; [reflexivity|].
  pose proof (setter_sequences_agree (slog_init slog_zeroed)
                (world_at_load fixed_clock)
                [OpShowTime false; OpSetLogCallback 9%N; OpSetPrint false;
                 OpShowTime true] eq_refl) as H.
  split; [reflexivity | rewrite <- H; reflexivity].
Defined.

(** ** Method pointers *)

Lemma apply_ops_methods (ops : list config_op) :
  forall s, methods (apply_ops s ops) = methods s.
Proof.
  induction ops as [|op ops IH]; intros s; [reflexivity|].
  unfold apply_ops; cbn [fold_left].
  change (fold_left apply_op ops (apply_op s op))
    with (apply_ops (apply_op s op) ops).
  rewrite IH; destruct op; reflexivity.
Qed.

(** X10.  An instance that went through [slog_init] and then through any sequence
    of setter calls still holds the seventeen method pointers [slog_init]
    stored, so each of its fourteen log methods calls the function of its
    name. *)
Theorem initialised_methods_resolve (s0 : slog_t) (ops : list config_op)
  (level : idflog_level_t) (msg ex : string) :
  let s := apply_ops (slog_init s0) ops in
  methods s = methods (slog_init s0)
  /\ invoke (d s) s (ArgMsg msg) = Some (slog_d s msg)
  /\ invoke (e s) s (ArgMsg msg) = Some (slog_e s msg)
  /\ invoke (i s) s (ArgMsg msg) = Some (slog_i s msg)
  /\ invoke (v s) s (ArgMsg msg) = Some (slog_v s msg)
  /\ invoke (w s) s (ArgMsg msg) = Some (slog_w s msg)
  /\ invoke (wtf s) s (ArgMsg msg) = Some (slog_wtf s msg)
  /\ invoke (d_format s) s (ArgFormat ex) = Some (slog_d_format s ex)
  /\ invoke (e_format s) s (ArgFormat ex) = Some (slog_e_format s ex)
  /\ invoke (i_format s) s (ArgFormat ex) = Some (slog_i_format s ex)
  /\ invoke (v_format s) s (ArgFormat ex) = Some (slog_v_format s ex)
  /\ invoke (w_format s) s (ArgFormat ex) = Some (slog_w_format s ex)
  /\ invoke (wtf_format s) s (ArgFormat ex) = Some (slog_wtf_format s ex)
  /\ invoke (log s) s (ArgLevelMsg level msg) = Some (slog_log s level msg)
  /\ invoke (log_format s) s (ArgLevelFormat level ex)
     = Some (slog_log_format s level ex).
Proof.
  cbv zeta.
  pose proof (apply_ops_methods ops (slog_init s0)) as Hm.
  split; [exact Hm|].
  unfold methods in Hm; cbn [slog_init set_print show_time set_log_callback
    d d_format e e_format i i_format v v_format w w_format wtf wtf_format
    log log_format] in Hm.
  injection Hm as _ _ _ Hd Hdf He Hef Hi Hif Hv Hvf Hw Hwf Hwtf Hwtff Hl Hlf.
  rewrite Hd, Hdf, He, Hef, Hi, Hif, Hv, Hvf, Hw, Hwf, Hwtf, Hwtff, Hl, Hlf.
  repeat split.
Qed.


(** ** [idflog_init] *)

Lemma repeated_init (n : nat) :
  forall g,
    exec (run_all (repeat idflog_init (S n))) g
    = mk_world (print_enabled g) (show_time_enabled g) (log_callback g)
        (slog_init (slog g)) (clock g) (reads g)
        (trace g ++
         repeat (EvEspLogI TAG "IDFLOG component initialized with slog")
                (S n)).
Proof.
  induction n as [|n IH]; intros g.
  - reflexivity.
  - change (repeat idflog_init (S (S n)))
      with (idflog_init :: repeat idflog_init (S n)).
    cbn [run_all]; rewrite exec_seq, IH.
    cbn [repeat]; unfold exec, idflog_init, bind, read, store_slog,
      ESP_LOGI, emit.
    cbn [snd print_enabled show_time_enabled log_callback slog clock reads
         trace].
    rewrite <- app_assoc; reflexivity.
Qed.

(** X12.  The only thing [idflog_init] emits is one use of [ESP_LOGI], with
    the tag "IDFLOG" and the text "IDFLOG component initialized with slog":
    it makes no [printf] call and no callback invocation of its own.  Called
    [n + 1] times in a row it makes [n + 1] such uses, with that tag and
    text each time, and leaves the global instance and the three statics as
    one call leaves them. *)
Theorem idflog_init_effects (g : world) (n : nat) :
  emitted idflog_init g
  = [EvEspLogI "IDFLOG" "IDFLOG component initialized with slog"]
  /\ emitted (run_all (repeat idflog_init (S n))) g
     = repeat (EvEspLogI "IDFLOG" "IDFLOG component initialized with slog")
              (S n)
  /\ slog (exec (run_all (repeat idflog_init (S n))) g)
     = slog (exec idflog_init g)
  /\ idflog_config (exec (run_all (repeat idflog_init (S n))) g)
     = idflog_config (exec idflog_init g).
Proof.
  split; [apply emitted_of_trace; reflexivity|].
  split; [apply emitted_of_trace; rewrite repeated_init; reflexivity|].
  rewrite repeated_init; split; reflexivity.
Qed.

(** ** Log calls one after the other *)








(** ** Lines longer than the line buffer *)

Lemma take_append_short (n : nat) (a b : string) :
  (n <= String.length a)%nat -> take n (a ++ b) = take n a.
Proof.
  revert a; induction n as [|n IH]; intros [|c a] H; try reflexivity.
  - simpl in H; lia.
  - cbn [append take]; rewrite IH by (simpl in H; lia); reflexivity.
Qed.

Lemma count_nl_take (n : nat) (s : string) :
  (count_nl (take n s) <= count_nl s)%nat.
Proof.
  revert s; induction n as [|n IH]; intros [|c r]; simpl; try lia.
  specialize (IH r); lia.
Qed.

Lemma slog_line_body (show : bool) (time : Z) (level : idflog_level_t)
  (message : string) :
  exists body,
    slog_line show time level message = body ++ NL
    /\ count_nl body = count_nl message.
Proof.
  unfold slog_line; destruct show.
  - exists (fmt_lu time ++ " " ++ slog_level_name level ++ ": " ++ message).
    split; [repeat rewrite append_assoc; reflexivity|].
    rewrite slog_level_name_brackets.
    repeat rewrite count_nl_append.
    rewrite fmt_lu_count_nl, get_level_name_count_nl; simpl; lia.
  - exists (slog_level_name level ++ ": " ++ message).
    split; [repeat rewrite append_assoc; reflexivity|].
    rewrite slog_level_name_brackets.
    repeat rewrite count_nl_append.
    rewrite get_level_name_count_nl; simpl; lia.
Qed.

(** X14.  When the line an instance composes is longer than 511 characters,
    the text it prints and hands to the callback is exactly the first 511
    characters of that line, for every message; if the message holds no
    line terminator, neither does that text, so the console line is left
    unterminated. *)
Theorem overlong_instance_line_unterminated
  (self : slog_t) (g : world) (level : idflog_level_t) (message : string)
  (Hlong : (511 < String.length
                    (slog_line (_time self) (now_ms g) level message))%nat) :
  let full := slog_line (_time self) (now_ms g) level message in
  emitted (slog_send_logs self level message) g
  = sink_events (_print self) (logging_callback self) level (now_ms g)
      (take 511 full) (take 511 full)
  /\ String.length (take 511 full) = 511%nat
  /\ String.prefix (take 511 full) full = true
  /\ take 511 full <> full
  /\ (count_nl message = O -> count_nl (take 511 full) = O).
Proof.
  cbv zeta.
  split; [apply slog_send_logs_emitted|].
  assert (Hlen : String.length
                   (take 511
                      (slog_line (_time self) (now_ms g) level message))
                 = 511%nat)
    by (rewrite take_length_min; lia).
  split; [exact Hlen|].
  split; [apply take_is_prefix|].
  split; [intros E; rewrite E in Hlen; lia|].
  intros Hnl.
  destruct (slog_line_body (_time self) (now_ms g) level message)
    as (body & Eb & Cb).
  rewrite Eb in Hlong |- *.
  rewrite append_length in Hlong; cbn [String.length NL] in Hlong.
  rewrite take_append_short by lia.
  pose proof (count_nl_take 511 body); lia.
Qed.

Lemma overlong_instance_line_unterminated_witness :
  (511 < String.length
           (slog_line (_time demo_self) (now_ms demo_world) IDFLOG_DEBUG
                      (replicate 510 "x")))%nat
  /\ count_nl (replicate 510 "x") = O
  /\ printed (emitted (slog_send_logs demo_self IDFLOG_DEBUG
                         (replicate 510 "x")) demo_world)
     = ["1234567 [DEBUG]: " ++ replicate 494 "x"]
  /\ count_nl
       (take 511 (slog_line (_time demo_self) (now_ms demo_world)
                    IDFLOG_DEBUG (replicate 510 "x"))) = O.
Proof.
  assert (Hlong : (511 < String.length
                     (slog_line (_time demo_self) (now_ms demo_world)
                        IDFLOG_DEBUG (replicate 510 "x")))%nat)
    by (vm_compute; lia).
  split; [exact Hlong|]. split; [reflexivity|].
  destruct (overlong_instance_line_unterminated demo_self demo_world
              IDFLOG_DEBUG (replicate 510 "x") Hlong)
    as (He & _ & _ & _ & Hc).
  split; [rewrite He; vm_compute; reflexivity | exact (Hc eq_refl)].
Defined.

(** ** Timestamps on the console *)

Lemma digit_value_digit (n : Z) : digit_value (digit (n mod 10)) = n mod 10.
Proof.
  pose proof (Z.mod_pos_bound n 10 ltac:(lia)) as B.
  assert (C : n mod 10 = 0 \/ n mod 10 = 1 \/ n mod 10 = 2 \/ n mod 10 = 3
              \/ n mod 10 = 4 \/ n mod 10 = 5 \/ n mod 10 = 6
              \/ n mod 10 = 7 \/ n mod 10 = 8 \/ n mod 10 = 9) by lia.
  repeat (destruct C as [E|C]; [rewrite E; reflexivity|]).
  rewrite C; reflexivity.
Qed.

Lemma parse_digits (fuel : nat) :
  forall n acc,
    0 <= n < 10 ^ Z.of_nat fuel ->
    parse_lu (digits fuel n acc) 0 = parse_lu acc n.
Proof.
  induction fuel as [|f IH]; intros n acc Hn.
  - cbn [digits]; change (10 ^ Z.of_nat 0) with 1 in Hn.
    replace n with 0 by lia; reflexivity.
  - rewrite Nat2Z.inj_succ, Z.pow_succ_r in Hn by lia.
    cbn [digits].
    pose proof (Z.div_mod n 10 ltac:(lia)) as Hdm.
    destruct (n / 10 =? 0) eqn:Hq.
    + apply Z.eqb_eq in Hq.
      cbn [parse_lu]; rewrite digit_value_digit.
      f_equal; lia.
    + rewrite IH.
      * cbn [parse_lu]; rewrite digit_value_digit; f_equal; lia.
      * split; [apply Z.div_pos; lia|].
        apply Z.div_lt_upper_bound; lia.
Qed.

Lemma digits_length_tight (fuel : nat) :
  forall k n acc,
    0 <= n < 10 ^ Z.of_nat (S k) ->
    (String.length (digits fuel n acc) <= S k + String.length acc)%nat.
Proof.
  induction fuel as [|f IH]; intros k n acc Hn.
  - cbn [digits]; lia.
  - cbn [digits].
    destruct (n / 10 =? 0) eqn:Hq.
    + cbn [String.length]; lia.
    + apply Z.eqb_neq in Hq.
      destruct k as [|k].
      * exfalso; apply Hq, Z.div_small.
        change (10 ^ Z.of_nat 1) with 10 in Hn; lia.
      * rewrite Nat2Z.inj_succ, Z.pow_succ_r in Hn by lia.
        assert (Hd : 0 <= n / 10 < 10 ^ Z.of_nat (S k)).
        { split; [apply Z.div_pos; lia|].
          apply Z.div_lt_upper_bound; lia. }
        specialize (IH k (n / 10) (String (digit (n mod 10)) acc) Hd).
        cbn [String.length] in IH; lia.
Qed.

Lemma now_ms_range (g : world) : 0 <= now_ms g < 4294967296.
Proof. apply to_ulong_range. Qed.

Lemma fmt_lu_now_length (g : world) :
  (String.length (fmt_lu (now_ms g)) <= 10)%nat.
Proof.
  pose proof (now_ms_range g) as R.
  pose proof (digits_length_tight 20 9 (now_ms g) "") as H.
  cbn [String.length] in H; unfold fmt_lu.
  assert (0 <= now_ms g < 10 ^ Z.of_nat 10)
    by (change (10 ^ Z.of_nat 10) with 10000000000; lia).
  specialize (H H0); lia.
Qed.

(** X15.  The decimal digits of the timestamp in a console line read back as the
    timestamp handed to the callback: the digits are at most ten, they open
    the instance line and sit in the first bracket of the standalone line,
    and parsing them gives the value of the clock reading. *)
Theorem console_timestamp_reads_back
  (self : slog_t) (g : world) (level : idflog_level_t) (message : string) :
  let t := now_ms g in
  let self' := slog_show_time (slog_set_print self true) true in
  let g' := exec (idflog_set_print true ;;; idflog_show_time true) g in
  parse_lu (fmt_lu t) 0 = t
  /\ (String.length (fmt_lu t) <= 10)%nat
  /\ printed (emitted (slog_send_logs self' level message) g)
     = [fmt_lu t
        ++ take (511 - String.length (fmt_lu t))
             (" " ++ slog_level_name level ++ ": " ++ message ++ NL)]
  /\ printed (emitted (send_logs level message) g')
     = ["[" ++ fmt_lu t ++ "] [" ++ get_level_name level ++ "] "
        ++ message ++ NL]
  /\ callback_times (emitted (slog_send_logs self' level message) g)
     = (if N.eqb (logging_callback self) NULL then [] else [t])
  /\ callback_times (emitted (send_logs level message) g')
     = (if N.eqb (log_callback g) NULL then [] else [t]).
Proof.
  cbv zeta.
  pose proof (now_ms_range g) as R.
  pose proof (fmt_lu_now_length g) as L.
  split.
  { unfold fmt_lu; rewrite parse_digits; [reflexivity|].
    change (10 ^ Z.of_nat 20) with 100000000000000000000; lia. }
  split; [exact L|].
  unfold callback_times.
  rewrite slog_send_logs_emitted, send_logs_emitted.
  rewrite !sink_events_callbacks, !sink_events_printed.
  cbn [slog_show_time slog_set_print _print _time logging_callback].
  split.
  { unfold slog_line, snprintf; rewrite take_append by lia.
    reflexivity. }
  split; [reflexivity|].
  split.
  - destruct (N.eqb (logging_callback self) NULL); reflexivity.
  - change (log_callback
              (exec (idflog_set_print true ;;; idflog_show_time true) g))
      with (log_callback g).
    destruct (N.eqb (log_callback g) NULL); reflexivity.
Qed.

(** ** Line lengths of the formatted entry points *)

(** X16.  A formatted call never overflows the line buffer: the instance prints
    the whole composed line, at most 278 characters long, and the standalone
    surface prints a line of at most 279 characters, however long the
    expansion of the format is. *)
Theorem formatted_lines_are_short
  (self : slog_t) (g : world) (level : idflog_level_t) (ex : string) :
  let t := now_ms g in
  let body := snprintf 256 ex in
  printed (emitted (slog_log_format self level ex) g)
  = (if _print self then [slog_line (_time self) t level body] else [])
  /\ (String.length (slog_line (_time self) t level body) <= 278)%nat
  /\ printed (emitted (idflog_log level ex) g)
     = (if print_enabled g
        then [idflog_line (show_time_enabled g) t level body]
        else [])
  /\ (String.length (idflog_line (show_time_enabled g) t level body)
      <= 279)%nat.
Proof.
  cbv zeta.
  pose proof (fmt_lu_now_length g) as L.
  pose proof (get_level_name_length level) as T.
  pose proof (take_length 255 ex) as B.
  unfold slog_log_format, idflog_log.
  rewrite slog_send_logs_emitted, send_logs_emitted, !sink_events_printed.
  rewrite (snprintf_fits 512 _ (slog_line_of_buffer_fits _ _ _ _)).
  split; [reflexivity|].
  split.
  { unfold slog_line, snprintf; rewrite slog_level_name_brackets.
    change (256 - 1)%nat with 255%nat.
    destruct (_time self); repeat rewrite append_length;
      cbn [String.length NL]; lia. }
  split; [reflexivity|].
  unfold idflog_line, snprintf.
  change (256 - 1)%nat with 255%nat.
  destruct (show_time_enabled g); repeat rewrite append_length;
    cbn [String.length NL]; lia.
Qed.

(** ** The example's callback behind the callback pointer *)

Lemma replay_two (handler_text : idflog_level_t -> Z -> string -> string)
  (cb : idflog_callback_t) (level : idflog_level_t) (t : Z)
  (text line : string) (g : world) :
  printed
    (emitted
       (replay (fun l ts m => printf (handler_text l ts m))
               [EvCallback cb level t text; EvPrintf line]) g)
  = [handler_text level t text; line].
Proof.
  rewrite (emitted_of_trace _ g
             [EvPrintf (handler_text level t text); EvPrintf line]);
    [reflexivity|].
  unfold exec, replay, bind, printf, emit, ret; cbn [snd trace].
  rewrite <- app_assoc; reflexivity.
Qed.

(** X17.  With [custom_log_callback] registered and printing on, each log
    call puts two texts on the console, the callback's first.  On an
    instance the callback's text carries the line as the instance prints it
    (cut at 511 characters if longer); when the composed line fits, both
    texts end with the line terminator.  On the standalone surface the
    callback's text carries the bare message, so it holds no line
    terminator but those of the message, while the line printed after it is
    terminated. *)
Theorem example_callback_on_console
  (self : slog_t) (g g1 : world) (level : idflog_level_t) (message : string) :
  let t := now_ms g in
  let head :=
    "CALLBACK: [" ++ fmt_lu t ++ "] Level=" ++ fmt_d level ++ " Message=" in
  let line := snprintf 512 (slog_line (_time self) t level message) in
  let line' := idflog_line (show_time_enabled g) t level message in
  (logging_callback self <> NULL -> _print self = true ->
   printed (emitted (replay custom_log_callback
                       (emitted (slog_send_logs self level message) g)) g1)
   = [head ++ line; line]
   /\ ((String.length (slog_line (_time self) t level message) <= 511)%nat ->
       line = slog_line (_time self) t level message
       /\ ends_with (head ++ line) NL = true
       /\ ends_with line NL = true))
  /\ (log_callback g <> NULL -> print_enabled g = true ->
      printed (emitted (replay custom_log_callback
                          (emitted (send_logs level message) g)) g1)
      = [head ++ message; line']
      /\ ends_with line' NL = true
      /\ count_nl (head ++ message) = count_nl message).
Proof.
  cbv zeta.
  rewrite slog_send_logs_emitted, send_logs_emitted.
  unfold sink_events, custom_log_callback.
  split.
  - intros Hcb Hprint.
    rewrite (registered _ Hcb), Hprint; cbn [app].
    rewrite (replay_two
               (fun l ts m => "CALLBACK: [" ++ fmt_lu ts ++ "] Level="
                              ++ fmt_d l ++ " Message=" ++ m)).
    cbv beta.
    split; [repeat rewrite append_assoc; reflexivity|].
    intros Hfit; rewrite (snprintf_fits 512 _ Hfit).
    destruct (slog_line_body (_time self) (now_ms g) level message)
      as (pre & Epre & _).
    split; [reflexivity|].
    rewrite Epre; split; [|apply ends_with_append].
    replace (("CALLBACK: [" ++ fmt_lu (now_ms g) ++ "] Level="
              ++ fmt_d level ++ " Message=") ++ pre ++ NL)
      with ((("CALLBACK: [" ++ fmt_lu (now_ms g) ++ "] Level="
               ++ fmt_d level ++ " Message=") ++ pre) ++ NL)
      by (rewrite (append_assoc _ pre NL); reflexivity).
    apply ends_with_append.
  - intros Hcb' Hprint'.
    rewrite (registered _ Hcb'), Hprint'; cbn [app].
    rewrite (replay_two
               (fun l ts m => "CALLBACK: [" ++ fmt_lu ts ++ "] Level="
                              ++ fmt_d l ++ " Message=" ++ m)).
    cbv beta.
    split; [repeat rewrite append_assoc; reflexivity|].
    split.
    { unfold idflog_line; destruct (show_time_enabled g).
      - replace ("[" ++ fmt_lu (now_ms g) ++ "] [" ++ get_level_name level
                 ++ "] " ++ message ++ NL)
          with (("[" ++ fmt_lu (now_ms g) ++ "] [" ++ get_level_name level
                 ++ "] " ++ message) ++ NL)
          by (repeat rewrite append_assoc; reflexivity).
        apply ends_with_append.
      - replace ("[" ++ get_level_name level ++ "] " ++ message ++ NL)
          with (("[" ++ get_level_name level ++ "] " ++ message) ++ NL)
          by (repeat rewrite append_assoc; reflexivity).
        apply ends_with_append. }
    repeat rewrite count_nl_append.
    rewrite fmt_lu_count_nl.
    assert (Hd : count_nl (fmt_d level) = O).
    { unfold fmt_d; destruct (level <? 0);
        [rewrite count_nl_append|]; rewrite fmt_lu_count_nl; reflexivity. }
    rewrite Hd; reflexivity.
Qed.

Lemma example_callback_on_console_witness :
  (logging_callback demo_self <> NULL /\ _print demo_self = true)
  /\ (log_callback demo_world <> NULL /\ print_enabled demo_world = true)
  /\ (String.length
        (slog_line (_time demo_self) (now_ms demo_world) IDFLOG_INFO "hi")
      <= 511)%nat
  /\ printed
       (emitted (replay custom_log_callback
                   (emitted (slog_send_logs demo_self IDFLOG_INFO "hi")
                            demo_world))
                demo_world)
     = [("CALLBACK: [1234567] Level=1 Message=1234567 [INFO]: hi" ++ NL);
        ("1234567 [INFO]: hi" ++ NL)]
  /\ printed
       (emitted (replay custom_log_callback
                   (emitted (send_logs IDFLOG_INFO "hi") demo_world))
                demo_world)
     = ["CALLBACK: [1234567] Level=1 Message=hi";
        ("[1234567] [INFO] hi" ++ NL)].
Proof.
  assert (Hcb : logging_callback demo_self <> NULL)
    by (vm_compute; discriminate).
  assert (Hcb' : log_callback demo_world <> NULL)
    by (vm_compute; discriminate).
  split; [split; [exact Hcb | reflexivity]|].
  split; [split; [exact Hcb' | reflexivity]|].
  split; [vm_compute; lia|].
  destruct (example_callback_on_console demo_self demo_world demo_world
              IDFLOG_INFO "hi") as (Hi & Hs).
  destruct (Hi Hcb eq_refl) as (Ei & _).
  destruct (Hs Hcb' eq_refl) as (Es & _).
  split; [rewrite Ei | rewrite Es]; vm_compute; reflexivity.
Defined.
